(** * BingusSpoingus: search-result normalisation and script synthesis

    A shallow embedding of [src/web_search.py] (the search client) and
    [src/script_maker.py] (page fetcher and script synthesizer), followed by
    the properties of the specification stated over it.

    Python values that come out of a JSON decoder are modelled by the
    inductive type [json], strings by sequences of 8-bit characters, floats
    by [spec_float] at binary64 precision.  Library calls whose behaviour is
    not part of the repository (the JSON decoder, the float parser, the HTTP
    transports, the HTML parser, the completion service, the clock) are
    fields of the records [runtime], [service] and [world]: every theorem
    holds for whatever they return. *)

From Stdlib Require Import ZArith QArith Ascii String DecimalString SpecFloat.
From stdpp Require Import base list strings sorting.

Set Warnings "-register-all,-abstract-large-number".
Local Open Scope Z_scope.

(** ** Python values and builtins *)

Module Py.

(** Exceptions.  The search client only ever prints the message of an
    exception, so an exception is represented by its class; an [Exception]
    whose message is made from the response keeps that message. *)
Inductive exn : Type :=
  | TypeError
  | AttributeError
  | KeyError
  | IndexError
  | ValueError
  | OverflowError
  | RecursionError
  | JSONDecodeError
  | PlainException
  | MessageException (message : string)
  | UnicodeEncodeError.

Inductive result (A : Type) : Type :=
  | Ok (a : A)
  | Err (e : exn).
Arguments Ok {A} a.
Arguments Err {A} e.

Definition bind {A B : Type} (m : result A) (k : A -> result B) : result B :=
  match m with
  | Ok a => k a
  | Err e => Err e
  end.

Notation "x <- m ; k" := (bind m (fun x => k))
  (at level 20, m at level 100, k at level 200, only parsing).

Definition raises {A : Type} (m : result A) : Prop := exists e, m = Err e.

(** What [json.loads] and [response.json()] produce. *)
Inductive json : Type :=
  | JNull
  | JBool (b : bool)
  | JInt (z : Z)
  | JFloat (f : spec_float)
  | JStr (s : string)
  | JList (l : list json)
  | JDict (d : list (string * json)).

(** A [dict] with string keys: an association list read at its first match. *)
Abbreviation dict := (list (string * json)).

Fixpoint dict_lookup (k : string) (d : dict) : option json :=
  match d with
  | [] => None
  | (k', v) :: d' => if String.eqb k k' then Some v else dict_lookup k d'
  end.

(** [k in d] *)
Definition dict_has (k : string) (d : dict) : bool :=
  match dict_lookup k d with Some _ => true | None => false end.

(** [d.get(k)] and [d.get(k, dflt)] *)
Definition dict_get (k : string) (d : dict) : json :=
  default JNull (dict_lookup k d).

Definition dict_get_default (k : string) (dflt : json) (d : dict) : json :=
  default dflt (dict_lookup k d).

Definition is_dict (v : json) : bool :=
  match v with
  | JDict _ => true
  | _ => false
  end.

(** binary64 floats: [0.0], [1.0] and [0.5] *)
Definition float_zero : spec_float := S754_zero false.
Definition float_one : spec_float := S754_finite false 4503599627370496 (-52).
Definition float_half : spec_float := S754_finite false 4503599627370496 (-53).

Definition float_truthy (f : spec_float) : bool :=
  match f with
  | S754_zero _ => false
  | _ => true
  end.

(** [float(z)] for an [int]: round to nearest even, [OverflowError] when the
    result leaves the binary64 range. *)
Definition float_of_Z (z : Z) : result spec_float :=
  match binary_normalize 53 1024 z 0 false with
  | S754_infinity _ => Err OverflowError
  | f => Ok f
  end.

(** Truth value of a Python object. *)
Definition py_truthy (v : json) : bool :=
  match v with
  | JNull => false
  | JBool b => b
  | JInt z => negb (z =? 0)
  | JFloat f => float_truthy f
  | JStr s => negb (String.eqb s EmptyString)
  | JList l => match l with [] => false | _ => true end
  | JDict d => match d with [] => false | _ => true end
  end.

(** [a or b] on operands whose evaluation has no effect. *)
Definition py_or (a b : json) : json := if py_truthy a then a else b.

(** [s[:n]] for a string and a non-negative bound. *)
Fixpoint str_take (n : nat) (s : string) {struct s} : string :=
  match s, n with
  | String c s', S n' => String c (str_take n' s')
  | _, _ => EmptyString
  end.

(** [l[:n]] for a list and any integer bound. *)
Definition py_slice_upto {A : Type} (n : Z) (l : list A) : list A :=
  if 0 <=? n then take (Z.to_nat n) l
  else take (length l - Z.to_nat (- n))%nat l.

(** [needle in hay] for two strings. *)
Fixpoint str_contains (needle hay : string) : bool :=
  String.prefix needle hay ||
  match hay with
  | EmptyString => false
  | String _ hay' => str_contains needle hay'
  end.

Definition is_str (k : string) (v : json) : bool :=
  match v with
  | JStr s => String.eqb s k
  | _ => false
  end.

(** [k in v] for a string [k]. *)
Definition py_in (k : string) (v : json) : result bool :=
  match v with
  | JDict d => Ok (dict_has k d)
  | JList l => Ok (existsb (is_str k) l)
  | JStr s => Ok (str_contains k s)
  | JNull | JBool _ | JInt _ | JFloat _ => Err TypeError
  end.

(** [v[k]] for a string [k]. *)
Definition py_getitem (v : json) (k : string) : result json :=
  match v with
  | JDict d => match dict_lookup k d with Some x => Ok x | None => Err KeyError end
  | _ => Err TypeError
  end.

(** [v.get(k, dflt)]: only a dict has the method. *)
Definition py_get (v : json) (k : string) (dflt : json) : result json :=
  match v with
  | JDict d => Ok (dict_get_default k dflt d)
  | _ => Err AttributeError
  end.

(** [str(n)] for integers. *)
Definition str_of_Z (z : Z) : string := NilZero.string_of_int (Z.to_int z).
Definition str_of_nat (n : nat) : string := NilZero.string_of_uint (Nat.to_uint n).

(** [chr(10)] *)
Definition nl : string := String "010"%char EmptyString.

(** [sep.join(parts)] *)
Fixpoint str_join (sep : string) (parts : list string) : string :=
  match parts with
  | [] => EmptyString
  | [p] => p
  | p :: rest => p +:+ sep +:+ str_join sep rest
  end.

Fixpoint str_concat (parts : list string) : string :=
  match parts with
  | [] => EmptyString
  | p :: rest => p +:+ str_concat rest
  end.

(** The library functions the search client calls. *)
Record runtime : Type := {
  (** [json.loads] on a string; [Err JSONDecodeError] when it is not JSON *)
  json_loads : string -> result json;
  (** [float(s)] on a string; [None] for [ValueError] *)
  float_of_str : string -> option spec_float;
  (** [str(v)] of a value that is not a string *)
  py_repr : json -> string;
  (** [str(e)] of an exception that is represented by its class *)
  exn_message : exn -> string;
  (** whether [sys.stdout] can encode a text: [print] raises
      [UnicodeEncodeError] on a text it cannot encode (a character outside
      the encoding of the terminal, a lone surrogate that came as an escape
      in a JSON body) *)
  stdout_accepts : string -> bool
}.

(** [float(v)] *)
Definition py_float (rt : runtime) (v : json) : result spec_float :=
  match v with
  | JBool b => Ok (if b then float_one else float_zero)
  | JInt z => float_of_Z z
  | JFloat f => Ok f
  | JStr s =>
      match float_of_str rt s with
      | Some f => Ok f
      | None => Err ValueError
      end
  | JNull | JList _ | JDict _ => Err TypeError
  end.

(** [str(v)] *)
Definition py_str (rt : runtime) (v : json) : string :=
  match v with
  | JStr s => s
  | _ => py_repr rt v
  end.

(** [str(e)] *)
Definition str_exn (rt : runtime) (e : exn) : string :=
  match e with
  | MessageException message => message
  | _ => exn_message rt e
  end.

(** [print(text)] *)
Definition py_print (rt : runtime) (text : string) : result unit :=
  if stdout_accepts rt text then Ok tt else Err UnicodeEncodeError.

End Py.

(** ** The search client ([src/web_search.py]) *)

Module WebSearch.
Import Py.

(** [SearchResult] *)
Record SearchResult : Type := mkSearchResult {
  title : string;
  url : string;
  description : string;
  relevance_score : spec_float
}.

(** What [session.post] gives back: a [requests] exception, or a response
    with its status code and body text. *)
Inductive post_outcome : Type :=
  | PostRaises
  | PostResponse (status_code : Z) (text : string).

(** The remote side of one call of [search]. *)
Record service : Type := {
  (** [str(uuid.uuid4())] *)
  request_id : string;
  (** the formatted cutoff [datetime.now(utc) - timedelta(days=d)], or the
      exception the date arithmetic raises *)
  start_published_date : Z -> result string;
  (** the endpoint, as a function of the request body *)
  post : json -> post_outcome
}.

Section Client.

Variable rt : runtime.
Variable svc : service.

Definition request_data (method : string) (params : option json) : json :=
  JDict [("jsonrpc", JStr "2.0");
         ("id", JStr (request_id svc));
         ("method", JStr method);
         ("params", py_or (default JNull params) (JDict []))].

Definition _send_mcp_request (method : string) (params : option json) : result json :=
  match post svc (request_data method params) with
  | PostRaises => Err PlainException
  | PostResponse status_code text =>
      if negb (status_code =? 200) then Err PlainException
      else
        match json_loads rt text with
        | Err JSONDecodeError => Err PlainException
        | Err e => Err e
        | Ok response_data =>
            has_error <- py_in "error" response_data ;
            if has_error then
              error <- py_getitem response_data "error" ;
              error_msg <- py_get error "message" (JStr "Unknown MCP error") ;
              Err (MessageException ("MCP Error: " +:+ py_str rt error_msg))
            else Ok response_data
        end
  end.

(** The three [or] chains of [_create_search_result]. *)
Definition hit_title (item : dict) : json :=
  py_or (py_or (py_or (dict_get "title" item) (dict_get "name" item))
               (dict_get "heading" item))
        (JStr "Search Result").

Definition hit_url (item : dict) : json :=
  py_or (py_or (py_or (dict_get "url" item) (dict_get "link" item))
               (dict_get "href" item))
        (JStr EmptyString).

Definition hit_description (item : dict) : json :=
  py_or (py_or (py_or (py_or (dict_get "description" item) (dict_get "snippet" item))
                      (dict_get "summary" item))
               (dict_get "content" item))
        (JStr EmptyString).

(** [float(item.get("relevance_score", 0.0)) or float(item.get("score", 0.0))] *)
Definition hit_score (item : dict) : result spec_float :=
  a <- py_float rt (dict_get_default "relevance_score" (JFloat float_zero) item) ;
  if float_truthy a then Ok a
  else py_float rt (dict_get_default "score" (JFloat float_zero) item).

Definition _create_search_result (item : dict) : option SearchResult :=
  let title := hit_title item in
  let url := hit_url item in
  let description := hit_description item in
  match hit_score item with
  | Err _ => None
  | Ok relevance_score =>
      if py_truthy url && py_truthy title then
        Some {| title := str_take 200 (py_str rt title);
                url := py_str rt url;
                description := str_take 300 (py_str rt description);
                relevance_score := relevance_score |}
      else None
  end.

(** One turn of a [for item in ...] loop: an item that is no dict is
    skipped, and so is one for which no result is created. *)
Definition result_of_item (item : json) : option SearchResult :=
  match item with
  | JDict d => _create_search_result d
  | _ => None
  end.

Definition collect_results (items : list json) : list SearchResult :=
  omap result_of_item items.

(** [v[:n]] as the sequence the loop iterates over; slicing anything but a
    list or a string raises. *)
Definition slice_items (v : json) (n : Z) : result (list json) :=
  match v with
  | JList l => Ok (py_slice_upto n l)
  | JStr s =>
      Ok (map (fun c => JStr (String c EmptyString))
              (py_slice_upto n (list_ascii_of_string s)))
  | _ => Err TypeError
  end.

(** A loop over [v[:max_results]] inside the [try] of
    [_parse_search_results]: an exception leaves [results] empty. *)
Definition results_of_slice (v : json) (max_results : Z) : list SearchResult :=
  match slice_items v max_results with
  | Ok items => collect_results items
  | Err _ => []
  end.

Definition _parse_search_results (data : json) (max_results : Z) : list SearchResult :=
  match data with
  | JDict d =>
      match dict_lookup "results" d with
      | Some v => results_of_slice v max_results
      | None =>
          match dict_lookup "links" d with
          | Some v => results_of_slice v max_results
          | None =>
              if dict_has "url" d then
                match _create_search_result d with
                | Some r => [r]
                | None => []
                end
              else []
          end
      end
  | JList l => collect_results (py_slice_upto max_results l)
  | _ => []
  end.

Definition _parse_text_results (text query : string) : list SearchResult :=
  [ {| title := "Search results for: " +:+ query;
       url := EmptyString;
       description :=
         str_take 300 text +:+
         (if (300 <? String.length text)%nat then "..." else EmptyString);
       relevance_score := float_half |} ].

Definition search_arguments (query : string) (max_results : Z)
    (news_only : bool) (days_back : Z) : result json :=
  let base := [("query", JStr query); ("numResults", JInt max_results)] in
  if news_only then
    let with_category := base ++ [("category", JStr "news")] in
    if negb (days_back =? 0) then
      start_date <- start_published_date svc days_back ;
      Ok (JDict (with_category ++ [("startPublishedDate", JStr start_date)]))
    else Ok (JDict with_category)
  else Ok (JDict base).

Definition tool_call (arguments : json) : json :=
  JDict [("name", JStr "web_search_exa"); ("arguments", arguments)].

(** [json.loads] on the nested text: the decoded data is normalised, a text
    that is not JSON becomes the degraded result. *)
Definition decode_text (content_text : json) (query : string) (max_results : Z)
    : result (list SearchResult) :=
  match content_text with
  | JStr s =>
      match json_loads rt s with
      | Ok search_data => Ok (_parse_search_results search_data max_results)
      | Err JSONDecodeError => Ok (_parse_text_results s query)
      | Err e => Err e
      end
  | _ => Err TypeError
  end.

(** What [search] does with the response of the endpoint. *)
Definition extract_results (response : json) (query : string) (max_results : Z)
    : result (list SearchResult) :=
  result_data <- py_get response "result" (JDict []) ;
  has_content <- py_in "content" result_data ;
  if has_content then
    content <- py_getitem result_data "content" ;
    match content with
    | JList (JDict first :: _) =>
        match dict_lookup "text" first with
        | Some content_text => decode_text content_text query max_results
        | None => Ok (_parse_search_results content max_results)
        end
    | JStr _ => decode_text content query max_results
    | _ => Ok (_parse_search_results content max_results)
    end
  else Ok (_parse_search_results result_data max_results).

(** The statements inside the [try] of [search]. *)
Definition search_body (query : string) (max_results : Z)
    (news_only : bool) (days_back : Z) : result (list SearchResult) :=
  arguments <- search_arguments query max_results news_only days_back ;
  response <- _send_mcp_request "tools/call" (Some (tool_call arguments)) ;
  extract_results response query max_results.

(** [search]: the [except Exception] clause prints the exception of the
    body and returns the empty list; what its [print] raises leaves
    [search].  (The other prints of the client sit inside the [try] block of
    [search]; they are left out, the console being taken to show what they
    print.) *)
Definition search (query : string) (max_results : Z)
    (news_only : bool) (days_back : Z) : result (list SearchResult) :=
  match search_body query max_results news_only days_back with
  | Ok results => Ok results
  | Err e =>
      match py_print rt ("Error during blaxel-search: " +:+ str_exn rt e) with
      | Ok _ => Ok []
      | Err raised => Err raised
      end
  end.

End Client.

End WebSearch.

(** ** Page fetcher and script synthesizer ([src/script_maker.py]) *)

Module ScriptMaker.
Import Py.

(** The dict [fetch_webpage] returns. *)
Record FetchedPage : Type := mkFetchedPage {
  url : string;
  title : option string;
  content : option string;
  success : bool;
  error : option string
}.

(** An exception is represented here by [str(e)], which is all the fetcher
    keeps of it. *)
Inductive attempt (A : Type) : Type :=
  | Done (a : A)
  | Failed (message : string).
Arguments Done {A} a.
Arguments Failed {A} message.

(** What [http_client.get] gives back: an exception (connection error,
    timeout, unreachable host, invalid URL), or a response. *)
Inductive get_outcome : Type :=
  | GetRaises (message : string)
  | GetResponse (status_code : Z) (text : string).

(** What the fetcher reads off the parsed document: [soup.title] (absent, or
    present with its [.string], which may be [None]) and [soup.get_text()]
    once the non-content elements are removed. *)
Record document : Type := {
  soup_title : option (option string);
  soup_text : string
}.

(** One request to the completion service. *)
Record completion_request : Type := {
  model : string;
  max_tokens : Z;
  temperature : option Q;
  prompt : string
}.

(** Everything outside the repository that one synthesis run touches. *)
Record world : Type := {
  (** the outcome of the request of task [i] for a URL *)
  http_get : nat -> string -> get_outcome;
  (** [str(e)] of the [HTTPStatusError] that [raise_for_status] raises for a
      status code and URL *)
  status_error : Z -> string -> string;
  (** BeautifulSoup on the response text *)
  parse_html : string -> attempt document;
  (** [str.title] *)
  str_title : string -> string;
  (** [client.messages.create]: the text blocks of the message *)
  messages_create : completion_request -> attempt (list string);
  (** the instant at which task [i] completes *)
  finish_time : nat -> nat
}.

(** Characters [str.isspace] accepts and line boundaries of
    [str.splitlines], among the first 256 code points. *)
Definition is_space (c : ascii) : bool :=
  let n := nat_of_ascii c in
  ((9 <=? n) && (n <=? 13) || (28 <=? n) && (n <=? 32) || (n =? 133) || (n =? 160))%nat.

Definition is_line_boundary (c : ascii) : bool :=
  let n := nat_of_ascii c in
  ((10 <=? n) && (n <=? 13) || (28 <=? n) && (n <=? 30) || (n =? 133))%nat.

Fixpoint lstrip (s : list ascii) : list ascii :=
  match s with
  | c :: s' => if is_space c then lstrip s' else s
  | [] => []
  end.

(** [s.strip()] *)
Definition strip (s : list ascii) : list ascii :=
  rev (lstrip (rev (lstrip s))).

(** [s.splitlines()]; [line] holds the current line, reversed. *)
Fixpoint splitlines_from (line s : list ascii) : list (list ascii) :=
  match s with
  | [] => match line with [] => [] | _ => [rev line] end
  | c :: s' =>
      if is_line_boundary c then
        rev line ::
        match s' with
        | c' :: s'' =>
            if ((nat_of_ascii c =? 13) && (nat_of_ascii c' =? 10))%nat
            then splitlines_from [] s''
            else splitlines_from [] s'
        | [] => splitlines_from [] s'
        end
      else splitlines_from (c :: line) s'
  end.

Definition splitlines (s : list ascii) : list (list ascii) := splitlines_from [] s.

(** [s.split("  ")]; [phrase] holds the current piece, reversed. *)
Fixpoint split_spaces_from (phrase s : list ascii) : list (list ascii) :=
  match s with
  | [] => [rev phrase]
  | c :: s' =>
      match s' with
      | c' :: s'' =>
          if ((nat_of_ascii c =? 32) && (nat_of_ascii c' =? 32))%nat
          then rev phrase :: split_spaces_from [] s''
          else split_spaces_from (c :: phrase) s'
      | [] => split_spaces_from (c :: phrase) s'
      end
  end.

Definition split_spaces (s : list ascii) : list (list ascii) := split_spaces_from [] s.

(** The whitespace clean-up of [fetch_webpage]. *)
Definition clean_text (text : string) : string :=
  let lines := map strip (splitlines (list_ascii_of_string text)) in
  let chunks := flat_map (fun line => map strip (split_spaces line)) lines in
  str_join " "
    (map string_of_list_ascii
         (filter (fun chunk => chunk <> []) chunks)).

(** The statements inside the [try] of [fetch_webpage]. *)
Definition fetch_body (w : world) (i : nat) (url : string) : attempt FetchedPage :=
  match http_get w i url with
  | GetRaises message => Failed message
  | GetResponse status_code text =>
      if (200 <=? status_code) && (status_code <=? 299) then
        match parse_html w text with
        | Failed message => Failed message
        | Done soup =>
            let text := clean_text (soup_text soup) in
            let title :=
              match soup_title soup with
              | Some title_string => title_string
              | None => Some "No title"
              end in
            Done {| url := url;
                    title := title;
                    content := Some (str_take 15000 text);
                    success := true;
                    error := None |}
        end
      else Failed (status_error w status_code url)
  end.

Definition fetch_webpage (w : world) (i : nat) (url : string) : FetchedPage :=
  match fetch_body w i url with
  | Done page => page
  | Failed message =>
      {| url := url;
         title := None;
         content := None;
         success := false;
         error := Some message |}
  end.

(** [asyncio.gather]: the tasks complete in the order of their finish times,
    each completion fills the slot of its task, and the results are read off
    the slots once every task is done. *)
Definition finishes_first (w : world) (i j : nat) : Prop :=
  (finish_time w i <= finish_time w j)%nat.

#[global] Instance finishes_first_dec (w : world) (i j : nat) :
  Decision (finishes_first w i j) := Nat.le_dec _ _.

Definition completion_order (w : world) (n : nat) : list nat :=
  merge_sort (finishes_first w) (seq 0 n).

Definition complete_task (w : world) (urls : list string)
    (slots : list (option FetchedPage)) (i : nat) : list (option FetchedPage) :=
  match urls !! i with
  | Some url => <[i := Some (fetch_webpage w i url)]> slots
  | None => slots
  end.

Definition gather (w : world) (urls : list string) : list FetchedPage :=
  omap id (foldl (complete_task w urls)
                 (replicate (length urls) None)
                 (completion_order w (length urls))).

(** [enumerate(results, 1)] *)
Definition enumerate_from_1 {A : Type} (l : list A) : list (nat * A) :=
  imap (fun i x => (S i, x)) l.

(** A nullable field inside an f-string. *)
Definition fmt (field : option string) : string := default "None" field.

(** [s.replace('_', ' ')] *)
Fixpoint replace_underscores (s : string) : string :=
  match s with
  | EmptyString => EmptyString
  | String c s' =>
      String (if Ascii.eqb c "_"%char then " "%char else c) (replace_underscores s')
  end.

Definition source_summary (result : FetchedPage) : string :=
  "- " +:+ fmt (title result) +:+ " (" +:+ url result +:+ ")".

(** The synthesizers run in a state monad over the log of completion
    requests sent so far, with exceptions. *)
Definition M (A : Type) : Type :=
  list completion_request -> attempt A * list completion_request.

Definition ret {A : Type} (a : A) : M A := fun calls => (Done a, calls).

Definition raise {A : Type} (message : string) : M A := fun calls => (Failed message, calls).

Definition bindM {A B : Type} (m : M A) (k : A -> M B) : M B :=
  fun calls =>
    match m calls with
    | (Done a, calls') => k a calls'
    | (Failed message, calls') => (Failed message, calls')
    end.

Notation "x <~ m ; k" := (bindM m (fun x => k))
  (at level 20, m at level 100, k at level 200, only parsing).

(** [client.messages.create(...)] followed by [message.content[0].text] *)
Definition first_text (w : world) (request : completion_request) : M string :=
  fun calls =>
    (match messages_create w request with
     | Done (text :: _) => Done text
     | Done [] => Failed "list index out of range"
     | Failed message => Failed message
     end, calls ++ [request]).

Definition refusal : string :=
  "Error: Failed to fetch any webpages successfully. Please check the URLs.".

(** The prompt of [generate_podcast_script]. *)
Definition podcast_prompt (successful_fetches : nat)
    (context podcast_style episode_length tone target_audience : string)
    (source_summaries : list string) : string :=
  "You are a professional podcast scriptwriter. Based on the following source material from " +:+
  str_of_nat successful_fetches +:+
  " webpages, write a complete podcast script.

" +:+
  context +:+
  "

PODCAST SPECIFICATIONS:
- Style: " +:+
  podcast_style +:+
  "
- Episode Length: " +:+
  episode_length +:+
  "
- Tone: " +:+
  tone +:+
  "
- Target Audience: " +:+
  target_audience +:+
  "

SCRIPT REQUIREMENTS:
1. FORMAT: Write in standard podcast script format with clear speaker labels
2. NATURAL DIALOGUE: Make it sound like reading facts based on findings from research
3. PACING: Include natural pauses [PAUSE], transitions, and segment breaks
4. AUTHENTICITY: Make the narrator sound like they're reporting based on findings
5. CITATIONS: Naturally mention sources when referencing specific information

SOURCES TO CREDIT:
" +:+
  str_join nl source_summaries +:+
  "

Generate a complete, production-ready podcast script that brings this content to life in an engaging way for " +:+
  target_audience +:+
  ".

Make sure script focuses only on delivering information. No need to add additional flair. Just information from the url and context.

Make sure the script matches the " +:+
  episode_length +:+
  " target length. 

When generating the text do not add tone cues do not try to add comments, just have the text itself.
".

(** The text [generate_podcast_script] returns around the script. *)
Definition podcast_response (w : world) (urls : list string) (successful_fetches : nat)
    (podcast_style episode_length tone target_audience script_content : string)
    (source_summaries : list string) : string :=
  "# PODCAST SCRIPT GENERATED

**Episode Type:** " +:+
  str_title w (replace_underscores podcast_style) +:+
  "
**Length:** " +:+
  replace_underscores episode_length +:+
  "
**Tone:** " +:+
  str_title w tone +:+
  "
**Target Audience:** " +:+
  target_audience +:+
  "
**Sources Analyzed:** " +:+
  str_of_nat successful_fetches +:+
  "/" +:+
  str_of_nat (length urls) +:+
  "

---

" +:+
  script_content +:+
  "

---

**Sources Referenced:**
" +:+
  str_join nl source_summaries +:+
  "
".

(** The prompt of [generate_storytelling_podcast]. *)
Definition storytelling_prompt (context narrative_style narrator_voice : string) : string :=
  "You are a master storyteller and podcast scriptwriter. Based on the following source material, create a captivating narrative podcast script.

" +:+
  context +:+
  "

NARRATIVE SPECIFICATIONS:
- Style: " +:+
  narrative_style +:+
  "
- Voice: " +:+
  narrator_voice +:+
  "

STORYTELLING REQUIREMENTS:
1. Craft a compelling narrative arc (setup, rising action, climax, resolution)
2. Use vivid, descriptive language that paints pictures in the listener's mind
3. Build suspense and maintain engagement throughout
4. Include scene-setting and atmospheric descriptions
5. Use pacing effectively:
   - Short sentences for tension
   - Longer, flowing sentences for reflection
   - Strategic [PAUSE] markers for dramatic effect
6. Incorporate direct quotes from sources where powerful
7. Make the listener feel like they're experiencing the story with the narrator
8. Use narrative techniques:
   - Foreshadowing (hint at what's coming)
   - Callbacks (reference earlier points with new meaning)
   - Revelations (strategic information drops)
9. Include [MUSIC CUE: description] where it would enhance the story

Transform this information into a story that people will want to hear from beginning to end.".

(** The text [generate_storytelling_podcast] returns around the script. *)
Definition storytelling_response (w : world) (narrative_style narrator_voice script : string)
    (source_summaries : list string) : string :=
  "# NARRATIVE PODCAST SCRIPT

**Style:** " +:+
  str_title w (replace_underscores narrative_style) +:+
  "
**Voice:** " +:+
  str_title w (replace_underscores narrator_voice) +:+
  "

---

" +:+
  script +:+
  "

---

**Sources:**
" +:+
  str_join nl source_summaries +:+
  "
".

(** The prompt of [analyze_sources_for_podcast]. *)
Definition analysis_prompt (podcast_type context : string) : string :=
  "You are a podcast content strategist. Analyze the following sources to provide strategic recommendations for creating a " +:+
  podcast_type +:+
  " podcast.

" +:+
  context +:+
  "

ANALYSIS FRAMEWORK:
Provide a comprehensive analysis with:

1. **MAIN THEMES**: What are the core topics across all sources? Identify 3-5 major themes.

2. **HOOK IDEAS**: Suggest 5 compelling ways to open the podcast that will grab listeners immediately.

3. **KEY TALKING POINTS**: List the main points to cover in order. Create a logical flow.

4. **INTERESTING ANGLES**: What are 3-4 unique perspectives or angles that aren't obvious?

5. **POTENTIAL SEGMENTS**: How should the episode be structured? Suggest segment titles and durations.

6. **QUESTIONS TO ADDRESS**: What would the audience want to know? List 7-10 questions.

7. **STORYTELLING OPPORTUNITIES**: Identify specific anecdotes, examples, or narrative moments.

8. **RECOMMENDED FORMAT**: What podcast style would work best and why?

9. **ESTIMATED LENGTH**: Based on the depth of content, how long should this episode be?

10. **CHALLENGES**: What concepts might be difficult to explain in audio?

11. **PRODUCTION NOTES**: Suggestions for music, sound effects, or pacing?

Be specific and actionable. Reference actual content from the sources.".

(** The text [analyze_sources_for_podcast] returns around the analysis. *)
Definition analysis_response (analysis : string) (source_summaries : list string) : string :=
  "# PODCAST SOURCE ANALYSIS

" +:+
  analysis +:+
  "

---

**Sources Analyzed:**
" +:+
  str_join nl source_summaries +:+
  "

---

Ready to generate? Use 'generate_podcast_script' with your chosen parameters based on this analysis.
".

(** The prompt of [compare_sources_podcast]. *)
Definition comparison_prompt (comparison_angle context : string) : string :=
  "You are creating a podcast that explores " +:+
  comparison_angle +:+
  ". 

" +:+
  context +:+
  "

TASK:
Create a podcast script that:

1. **INTRODUCES THE LANDSCAPE**: What's the topic and why do different views exist?

2. **PRESENTS EACH PERSPECTIVE**: 
   - Fairly represent each source's viewpoint
   - Use direct quotes where powerful
   - Explain the reasoning behind each position

3. **COMPARES AND CONTRASTS**:
   - Where do they agree?
   - Where do they disagree?
   - What are the key points of tension?

4. **ANALYZES**:
   - Which arguments are stronger and why?
   - What evidence supports each side?

5. **SYNTHESIZES**:
   - What can we learn from examining all perspectives?
   - Is there a middle ground?
   - What questions remain unanswered?

FORMAT:
- Conversational but analytical tone
- Include [PAUSE] for reflection moments
- Structure with clear segments
- 20-30 minute script length

Make it balanced, thoughtful, and engaging.".

(** The text [compare_sources_podcast] returns around the script. *)
Definition comparison_response (urls : list string) (comparison_angle script : string)
    (source_summaries : list string) : string :=
  "# COMPARATIVE ANALYSIS PODCAST

**Comparison Focus:** " +:+
  comparison_angle +:+
  "
**Sources:** " +:+
  str_of_nat (length urls) +:+
  "

---

" +:+
  script +:+
  "

---

**Sources Compared:**
" +:+
  str_join nl source_summaries +:+
  "
".

(** The blocks the loops append to the context for result number [i]. *)
Definition success_block (i : nat) (result : FetchedPage) : string :=
  "## Source " +:+ str_of_nat i +:+ ": " +:+ fmt (title result) +:+ nl +:+
  "URL: " +:+ url result +:+ nl +:+ nl +:+
  fmt (content result) +:+ nl +:+ nl +:+
  "---" +:+ nl +:+ nl.

Definition failure_block (i : nat) (result : FetchedPage) : string :=
  "## Source " +:+ str_of_nat i +:+ ": FAILED" +:+ nl +:+
  "URL: " +:+ url result +:+ nl +:+
  "Error: " +:+ fmt (error result) +:+ nl +:+ nl.

Definition story_block (i : nat) (result : FetchedPage) : string :=
  "## Source " +:+ str_of_nat i +:+ ": " +:+ fmt (title result) +:+ nl +:+
  fmt (content result) +:+ nl +:+ nl +:+ "---" +:+ nl +:+ nl.

Definition preview_block (i : nat) (result : FetchedPage) (preview : string) : string :=
  "## Source " +:+ str_of_nat i +:+ ": " +:+ fmt (title result) +:+ nl +:+
  "URL: " +:+ url result +:+ nl +:+ nl +:+
  preview +:+ "..." +:+ nl +:+ nl +:+ "---" +:+ nl +:+ nl.

(** The loop of [generate_podcast_script] over [enumerate(results, 1)],
    on [(context, successful_fetches, source_summaries)]. *)
Definition podcast_step (acc : string * nat * list string)
    (numbered : nat * FetchedPage) : string * nat * list string :=
  let '(context, successful_fetches, source_summaries) := acc in
  let '(i, result) := numbered in
  if success result then
    (context +:+ success_block i result,
     S successful_fetches,
     source_summaries ++ [source_summary result])
  else
    (context +:+ failure_block i result, successful_fetches, source_summaries).

(** The arguments of [client.messages.create]. *)
Definition completion (max_tokens : Z) (temperature : option Q) (prompt : string)
    : completion_request :=
  {| model := "claude-sonnet-4-20250514";
     max_tokens := max_tokens;
     temperature := temperature;
     prompt := prompt |}.

Definition podcast_header : string :=
  "# Source Material from Webpages:" +:+ nl +:+ nl.

Definition generate_podcast_script (w : world) (urls : list string)
    (podcast_style episode_length tone target_audience : string) : M string :=
  let results := gather w urls in
  let '(context, successful_fetches, source_summaries) :=
    foldl podcast_step (podcast_header, 0%nat, []) (enumerate_from_1 results) in
  if (successful_fetches =? 0)%nat then ret refusal
  else
    let prompt :=
      podcast_prompt successful_fetches context podcast_style episode_length
                     tone target_audience source_summaries in
    script_content <~ first_text w (completion 8000 (Some (7 # 10)%Q) prompt) ;
    ret (podcast_response w urls successful_fetches podcast_style episode_length
                          tone target_audience script_content source_summaries).

(** The loops of the other three tools keep [(context, source_summaries)]
    and have no [else] branch. *)
Definition story_step (acc : string * list string)
    (numbered : nat * FetchedPage) : string * list string :=
  let '(context, source_summaries) := acc in
  let '(i, result) := numbered in
  if success result then
    (context +:+ story_block i result, source_summaries ++ [source_summary result])
  else acc.

Definition story_header : string := "# Story Source Material:" +:+ nl +:+ nl.

Definition generate_storytelling_podcast (w : world) (urls : list string)
    (narrative_style narrator_voice : string) : M string :=
  let results := gather w urls in
  let '(context, source_summaries) :=
    foldl story_step (story_header, []) (enumerate_from_1 results) in
  let prompt := storytelling_prompt context narrative_style narrator_voice in
  script <~ first_text w (completion 8000 (Some (8 # 10)%Q) prompt) ;
  ret (storytelling_response w narrative_style narrator_voice script source_summaries).

(** [result['content'][:3000]] raises on a [None] content. *)
Fixpoint analysis_loop (numbered : list (nat * FetchedPage))
    (context : string) (source_summaries : list string)
    : attempt (string * list string) :=
  match numbered with
  | [] => Done (context, source_summaries)
  | (i, result) :: rest =>
      if success result then
        match content result with
        | Some text =>
            let preview := str_take 3000 text in
            analysis_loop rest (context +:+ preview_block i result preview)
                          (source_summaries ++ [source_summary result])
        | None => Failed "'NoneType' object is not subscriptable"
        end
      else analysis_loop rest context source_summaries
  end.

Definition analysis_header : string := "# Content to Analyze:" +:+ nl +:+ nl.

Definition analyze_sources_for_podcast (w : world) (urls : list string)
    (podcast_type : string) : M string :=
  let results := gather w urls in
  match analysis_loop (enumerate_from_1 results) analysis_header [] with
  | Failed message => raise message
  | Done (context, source_summaries) =>
      let prompt := analysis_prompt podcast_type context in
      analysis <~ first_text w (completion 4096 None prompt) ;
      ret (analysis_response analysis source_summaries)
  end.

Definition compare_step (acc : string * list string)
    (numbered : nat * FetchedPage) : string * list string :=
  let '(context, source_summaries) := acc in
  let '(i, result) := numbered in
  if success result then
    (context +:+ success_block i result, source_summaries ++ [source_summary result])
  else acc.

Definition compare_header : string := "# Sources to Compare:" +:+ nl +:+ nl.

Definition compare_sources_podcast (w : world) (urls : list string)
    (comparison_angle : string) : M string :=
  let results := gather w urls in
  let '(context, source_summaries) :=
    foldl compare_step (compare_header, []) (enumerate_from_1 results) in
  let prompt := comparison_prompt comparison_angle context in
  script <~ first_text w (completion 8000 (Some (7 # 10)%Q) prompt) ;
  ret (comparison_response urls comparison_angle script source_summaries).

(** *** What the loops build, in closed form

    Used to state the properties below: the context of each tool as its
    header followed by one block per result, in the order of the results. *)

Definition successful (results : list FetchedPage) : list FetchedPage :=
  List.filter success results.

Definition source_list (results : list FetchedPage) : list string :=
  source_summary <$> successful results.

Definition podcast_block (i : nat) (result : FetchedPage) : string :=
  if success result then success_block i result else failure_block i result.

Definition podcast_context (results : list FetchedPage) : string :=
  podcast_header +:+ str_concat (imap (fun i => podcast_block (S i)) results).

(** A block for a successful fetch, nothing for a failed one. *)
Definition success_only (block : nat -> FetchedPage -> string)
    (i : nat) (result : FetchedPage) : string :=
  if success result then block i result else EmptyString.

Definition story_context (results : list FetchedPage) : string :=
  story_header +:+ str_concat (imap (fun i => success_only story_block (S i)) results).

Definition analysis_block (i : nat) (result : FetchedPage) : string :=
  preview_block i result (str_take 3000 (default EmptyString (content result))).

Definition analysis_context (results : list FetchedPage) : string :=
  analysis_header +:+
  str_concat (imap (fun i => success_only analysis_block (S i)) results).

Definition compare_context (results : list FetchedPage) : string :=
  compare_header +:+
  str_concat (imap (fun i => success_only success_block (S i)) results).

(** The outcome of one completion request, its text wrapped by [wrap]. *)
Definition answer (w : world) (request : completion_request)
    (wrap : string -> string) : attempt string :=
  match messages_create w request with
  | Done (text :: _) => Done (wrap text)
  | Done [] => Failed "list index out of range"
  | Failed message => Failed message
  end.

End ScriptMaker.

(** ** The search manager and the rest of the client ([src/web_search.py]) *)

Module SearchManager.
Import Py WebSearch.

(** [WebSearchManager]: the cap it was built with.  Its client is the pair of
    a runtime and a service. *)
Record WebSearchManager : Type := { self_max_results : Z }.

Section Manager.

Variable rt : runtime.
Variable svc : service.
(** [f"{x:.2f}"] *)
Variable format_2f : spec_float -> string.

(** [BlaxelSearchMCPClient.list_tools]; nothing catches what it raises. *)
Definition list_tools : result json :=
  response <- _send_mcp_request rt svc "tools/list" None ;
  result_data <- py_get response "result" (JDict []) ;
  py_get result_data "tools" (JList []).

(** [WebSearchManager.list_available_tools]: the except clause prints the
    exception and returns the empty list; what its [print] raises leaves the
    function. *)
Definition list_available_tools : result json :=
  match list_tools with
  | Ok tools => Ok tools
  | Err e =>
      match py_print rt ("Error listing tools: " +:+ str_exn rt e) with
      | Ok _ => Ok (JList [])
      | Err raised => Err raised
      end
  end.

(** [max_results or self.max_results], for [max_results] an [int] or [None] *)
Definition effective_max_results (self : WebSearchManager) (max_results : option Z) : Z :=
  match max_results with
  | Some m => if m =? 0 then self_max_results self else m
  | None => self_max_results self
  end.

(** [WebSearchManager.search_for_topic].  Its except clause is reached by
    the one exception that can leave [search], the [UnicodeEncodeError] of a
    [print]; the message of that exception is ASCII text that names the
    character by its escape, so the clause prints it and returns the empty
    list. *)
Definition search_for_topic (self : WebSearchManager) (user_input : string)
    (max_results : option Z) (news_only : bool) (days_back : Z) : list SearchResult :=
  match search rt svc user_input (effective_max_results self max_results)
               news_only days_back with
  | Ok results => results
  | Err _ => []
  end.

(** [search_for_links], for the endpoint and token that lead to [svc] *)
Definition search_for_links (user_input : string) (max_results : Z) : list SearchResult :=
  search_for_topic {| self_max_results := max_results |} user_input
                   (Some max_results) true 7.

(** One turn of the loop of [format_results]. *)
Definition format_step (output : list string) (numbered : nat * SearchResult)
    : list string :=
  let '(i, result) := numbered in
  let output := output ++ [str_of_nat i +:+ ". " +:+ title result] in
  let output :=
    if negb (String.eqb (url result) EmptyString)
    then output ++ ["   URL: " +:+ url result] else output in
  let output :=
    if negb (String.eqb (description result) EmptyString)
    then output ++ ["   Description: " +:+ description result] else output in
  let output :=
    if SFltb float_zero (relevance_score result)
    then output ++ ["   Relevance: " +:+ format_2f (relevance_score result)]
    else output in
  output ++ [EmptyString].

Definition format_results (results : list SearchResult) : string :=
  match results with
  | [] => "No relevant links found."
  | _ => str_join nl (foldl format_step [] (ScriptMaker.enumerate_from_1 results))
  end.

(** *** The listing in closed form: the lines of entry [i], and the lines of
    a sequence of results numbered from [start]. *)
Definition result_lines (i : nat) (result : SearchResult) : list string :=
  [str_of_nat i +:+ ". " +:+ title result] ++
  (if negb (String.eqb (url result) EmptyString)
   then ["   URL: " +:+ url result] else []) ++
  (if negb (String.eqb (description result) EmptyString)
   then ["   Description: " +:+ description result] else []) ++
  (if SFltb float_zero (relevance_score result)
   then ["   Relevance: " +:+ format_2f (relevance_score result)] else []) ++
  [EmptyString].

Definition listing (start : nat) (results : list SearchResult) : list string :=
  concat (imap (fun i => result_lines (start + i)) results).

End Manager.

(** The body of the request of a news search with a cutoff date. *)
Definition news_request (svc : service) (query : string) (max_results : Z)
    (start_date : string) : json :=
  JDict [("jsonrpc", JStr "2.0");
         ("id", JStr (request_id svc));
         ("method", JStr "tools/call");
         ("params",
          JDict [("name", JStr "web_search_exa");
                 ("arguments",
                  JDict [("query", JStr query);
                         ("numResults", JInt max_results);
                         ("category", JStr "news");
                         ("startPublishedDate", JStr start_date)])])].

(** A hit that carries the fields of a result under their first names. *)
Definition hit_of_result (r : SearchResult) : dict :=
  [("title", JStr (title r));
   ("url", JStr (url r));
   ("description", JStr (description r));
   ("relevance_score", JFloat (relevance_score r))].

End SearchManager.

(** ** What a run of a tool leaves behind *)

Module Outcome.
Import ScriptMaker.

(** One request was added to the log, and the outcome of the run is that of
    the request: the message of the exception when the service raises, an
    [IndexError] when the message has no content block, a script made from
    the first block otherwise. *)
Definition served (w : world) (calls : list completion_request)
    (run : attempt string * list completion_request) : Prop :=
  exists request,
    snd run = calls ++ [request] /\
    model request = "claude-sonnet-4-20250514" /\
    match messages_create w request with
    | Failed message => fst run = Failed message
    | Done [] => fst run = Failed "list index out of range"
    | Done (text :: _) => exists script, fst run = Done script
    end.

End Outcome.

(** ** The pipeline driver ([src/generate_podcast.py]) *)

Module Pipeline.
Import Py.

(** What [f.write(text)] does on the file just opened: it returns, or it
    raises [e]; [message] is [str(e)] and [remains] the text the file holds
    once the [with] block has closed it (empty when the text cannot be
    encoded, a part of the text when the disk fills up). *)
Inductive write_outcome : Type :=
  | Written
  | WriteRaises (message : string) (remains : string).

(** What the driver touches besides the search service and the world of the
    synthesizer.  Of its prints, those that follow the write and the one of
    the except clause are modelled, since they decide what
    [generate_script_from_urls] returns once a file is there; the others are
    left out. *)
Record host : Type := {
  (** [str.lower] *)
  str_lower : string -> string;
  (** [str(e)] of what [from script_maker import ...] raises, if it raises *)
  import_error : option string;
  (** [str(e)] of what creating the [script] folder or opening the named
      file for writing raises, if it raises; no file is created or
      truncated then *)
  open_error : string -> option string;
  (** [f.write] of a text on the named file, opened with mode ['w'] *)
  write : string -> string -> write_outcome;
  (** [str(e)] of what the prints that follow the write raise, if one
      raises: they show the path and the size of the named file and the
      first 500 characters of the script *)
  report_error : string -> string -> option string;
  (** [str(e)] of what the [print] of the except clause raises for an
      exception with the given message, if it raises *)
  handler_error : string -> option string;
  (** [datetime.now().strftime("%Y%m%d_%H%M%S")] *)
  timestamp : string
}.

(** The completion requests sent, and the files opened for writing under
    [script/] with the text each holds when it is closed, in order. *)
Record run_state : Type := {
  calls : list ScriptMaker.completion_request;
  files : list (string * string)
}.

(** [s.replace(' ', '_')] *)
Fixpoint replace_spaces (s : string) : string :=
  match s with
  | EmptyString => EmptyString
  | String c s' =>
      String (if Ascii.eqb c " "%char then "_"%char else c) (replace_spaces s')
  end.

Section Driver.

Variable rt : runtime.
Variable svc : WebSearch.service.
Variable w : ScriptMaker.world.
Variable h : host.

(** [query.lower().replace(' ', '_')[:30]] *)
Definition safe_query (query : string) : string :=
  str_take 30 (replace_spaces (str_lower h query)).

Definition output_filename (query stamp : string) : string :=
  "podcast_" +:+ safe_query query +:+ "_" +:+ stamp +:+ ".md".

Definition search_and_extract_urls (query : string) (num_results : Z) : list string :=
  let results := SearchManager.search_for_links rt svc query num_results in
  match results with
  | [] => []
  | _ =>
      WebSearch.url <$>
        List.filter (fun result => negb (String.eqb (WebSearch.url result) EmptyString))
                    results
  end.

(** The except clause of [generate_script_from_urls]: it prints the
    exception and returns [False]; what its [print] raises leaves the
    function. *)
Definition handled (message : string) : ScriptMaker.attempt bool :=
  match handler_error h message with
  | Some raised => ScriptMaker.Failed raised
  | None => ScriptMaker.Done false
  end.

(** [generate_script_from_urls].  Opening the file creates or truncates it,
    so a file is there from then on, whatever follows. *)
Definition generate_script_from_urls (urls : list string) (filename : string)
    (podcast_style episode_length tone target_audience : string)
    (st : run_state) : ScriptMaker.attempt bool * run_state :=
  match urls with
  | [] => (ScriptMaker.Done false, st)
  | _ =>
      match import_error h with
      | Some message => (handled message, st)
      | None =>
          match ScriptMaker.generate_podcast_script w urls podcast_style
                  episode_length tone target_audience (calls st) with
          | (ScriptMaker.Failed message, calls') =>
              (handled message, {| calls := calls'; files := files st |})
          | (ScriptMaker.Done script_content, calls') =>
              match open_error h filename with
              | Some message =>
                  (handled message, {| calls := calls'; files := files st |})
              | None =>
                  match write h filename script_content with
                  | WriteRaises message remains =>
                      (handled message,
                       {| calls := calls'; files := files st ++ [(filename, remains)] |})
                  | Written =>
                      let st' :=
                        {| calls := calls';
                           files := files st ++ [(filename, script_content)] |} in
                      match report_error h filename script_content with
                      | Some message => (handled message, st')
                      | None => (ScriptMaker.Done true, st')
                      end
                  end
              end
          end
      end
  end.

(** [main], for the query read from the command line or the prompt; an
    exception that leaves [generate_script_from_urls] leaves [main]. *)
Definition main (query : string) (st : run_state) : ScriptMaker.attempt unit * run_state :=
  match ScriptMaker.strip (list_ascii_of_string query) with
  | [] => (ScriptMaker.Done tt, st)
  | _ =>
      match search_and_extract_urls query 8 with
      | [] => (ScriptMaker.Done tt, st)
      | urls =>
          match generate_script_from_urls urls (output_filename query (timestamp h))
                  "solo_narrative" "medium_15_25_min" "casual" "general audience" st with
          | (ScriptMaker.Done _, st') => (ScriptMaker.Done tt, st')
          | (ScriptMaker.Failed message, st') => (ScriptMaker.Failed message, st')
          end
      end
  end.

End Driver.

End Pipeline.

(** ** Shapes of cleaned text

    Predicates used to state what [clean_text] produces, and [clean_text] on
    lists of characters. *)

Module TextShape.
Import ScriptMaker.

Definition is_blank (c : ascii) : bool := (nat_of_ascii c =? 32)%nat.

(** Two spaces in a row somewhere in the text. *)
Fixpoint has_double_space (l : list ascii) : bool :=
  match l with
  | c :: l' =>
      match l' with
      | c' :: _ => is_blank c && is_blank c' || has_double_space l'
      | [] => false
      end
  | [] => false
  end.

(** No whitespace at either end. *)
Definition trimmed (l : list ascii) : Prop :=
  (forall c, head l = Some c -> is_space c = false) /\
  (forall c, last l = Some c -> is_space c = false).

Definition no_line_boundary (l : list ascii) : Prop :=
  Forall (fun c => is_line_boundary c = false) l.

Definition starts_blank (l : list ascii) : bool := from_option is_blank false (head l).

Definition ends_blank (l : list ascii) : bool := from_option is_blank false (last l).

(** The shape of a cleaned text: one line, single spaces only, nothing to
    strip. *)
Definition cleaned (l : list ascii) : Prop :=
  no_line_boundary l /\ has_double_space l = false /\ trimmed l.

Definition good_chunk (chunk : list ascii) : Prop :=
  chunk <> [] /\ cleaned chunk.

(** The chunks [clean_text] joins. *)
Definition chunks_of (l : list ascii) : list (list ascii) :=
  filter (fun chunk => chunk <> [])
         (flat_map (fun line => map strip (split_spaces line))
                   (map strip (splitlines l))).

(** [" ".join(chunks)] on lists of characters. *)
Fixpoint join_chars (chunks : list (list ascii)) : list ascii :=
  match chunks with
  | [] => []
  | [chunk] => chunk
  | chunk :: rest => chunk ++ " "%char :: join_chars rest
  end.

End TextShape.

(** ** Concrete runs

    Stand-ins for the library functions in the concrete runs below.  Each
    agrees with Python on what its run consults: the decoder is a table of
    the JSON texts of the run and their values (any other text raises
    [JSONDecodeError]), no text of a run is a number, no run calls [str] on
    anything but a string, and the console shows every text. *)

Module Scenarios.
Import Py.

Definition loads_table (table : list (string * json)) (s : string) : result json :=
  match dict_lookup s table with
  | Some v => Ok v
  | None => Err JSONDecodeError
  end.

Definition table_runtime (table : list (string * json)) : runtime :=
  {| json_loads := loads_table table;
     float_of_str := fun _ => None;
     py_repr := fun _ => "<object>";
     exn_message := fun _ => "<message>";
     stdout_accepts := fun _ => true |}.

Definition fixed_service (outcome : WebSearch.post_outcome) : WebSearch.service :=
  {| WebSearch.request_id := "8c5f3c0e-5d0b-4c57-9a57-2f1f3d1c7e11";
     WebSearch.start_published_date := fun _ => Ok "2026-10-27T11:02:00.000Z";
     WebSearch.post := fun _ => outcome |}.

(** JSON texts are written with [quoted]: a string between double quotes,
    its own double quotes and backslashes escaped. *)
Definition dquote : ascii := ascii_of_nat 34.
Definition backslash : ascii := ascii_of_nat 92.

Fixpoint escaped (s : string) : string :=
  match s with
  | EmptyString => EmptyString
  | String c s' =>
      if Ascii.eqb c dquote || Ascii.eqb c backslash
      then String backslash (String c (escaped s'))
      else String c (escaped s')
  end.

Definition quoted (s : string) : string :=
  String dquote (escaped s +:+ String dquote EmptyString).

(** The body of a response whose [result.content[0].text] is [text], and
    the value it decodes to. *)
Definition envelope_text (text : string) : string :=
  "{" +:+ quoted "jsonrpc" +:+ ": " +:+ quoted "2.0" +:+ ", " +:+
  quoted "result" +:+ ": {" +:+ quoted "content" +:+ ": [{" +:+
  quoted "type" +:+ ": " +:+ quoted "text" +:+ ", " +:+
  quoted "text" +:+ ": " +:+ quoted text +:+ "}]}}".

Definition envelope (text : string) : json :=
  JDict [("jsonrpc", JStr "2.0");
         ("result", JDict [("content", JList [JDict [("type", JStr "text");
                                                     ("text", JStr text)]])])].

(** A search answered by a sentence instead of JSON. *)
Definition plain_answer : string := "No results were found for this query.".

Definition plain_runtime : runtime :=
  table_runtime [(envelope_text plain_answer, envelope plain_answer)].

Definition plain_service : WebSearch.service :=
  fixed_service (WebSearch.PostResponse 200 (envelope_text plain_answer)).

(** A search answered by two hits, the second with a title and no link. *)
Definition two_hits_text : string :=
  "[{" +:+ quoted "title" +:+ ": " +:+ quoted "Rust 1.80 released" +:+ ", " +:+
  quoted "url" +:+ ": " +:+ quoted "https://blog.example/rust-1-80" +:+ ", " +:+
  quoted "snippet" +:+ ": " +:+ quoted "What is new in this release" +:+ "}, {" +:+
  quoted "title" +:+ ": " +:+ quoted "Untitled draft" +:+ "}]".

Definition two_hits : list json :=
  [JDict [("title", JStr "Rust 1.80 released");
          ("url", JStr "https://blog.example/rust-1-80");
          ("snippet", JStr "What is new in this release")];
   JDict [("title", JStr "Untitled draft")]].

Definition two_hits_runtime : runtime :=
  table_runtime [(envelope_text two_hits_text, envelope two_hits_text);
                 (two_hits_text, JList two_hits)].

Definition two_hits_service : WebSearch.service :=
  fixed_service (WebSearch.PostResponse 200 (envelope_text two_hits_text)).

(** An endpoint that answers with a page of HTML. *)
Definition html_service : WebSearch.service :=
  fixed_service (WebSearch.PostResponse 200 "<html><body>Bad gateway</body></html>").

(** Hits for the score rules. *)
Definition zero_score_hit : dict :=
  [("title", JStr "Zero relevance");
   ("url", JStr "https://a.example/");
   ("relevance_score", JFloat float_zero);
   ("score", JFloat float_half)].

Definition text_score_hit : dict :=
  [("title", JStr "Scored twice");
   ("url", JStr "https://b.example/");
   ("relevance_score", JFloat float_half);
   ("score", JStr "high")].

Definition bad_relevance_hit : dict :=
  [("title", JStr "Unscored");
   ("url", JStr "https://c.example/");
   ("relevance_score", JStr "high")].

Definition valid_hit (n : string) : json :=
  JDict [("title", JStr ("Article " +:+ n)); ("url", JStr ("https://news.example/" +:+ n))].

Definition capped_hits : list json :=
  [JDict [("title", JStr "No link here")]; valid_hit "1"; valid_hit "2"; valid_hit "3"].

(** [str.title] on ASCII text: a letter that follows a letter is lowered,
    any other letter is raised. *)
Definition is_upper (c : ascii) : bool :=
  let n := nat_of_ascii c in ((65 <=? n) && (n <=? 90))%nat.

Definition is_lower (c : ascii) : bool :=
  let n := nat_of_ascii c in ((97 <=? n) && (n <=? 122))%nat.

Fixpoint ascii_title_from (after_letter : bool) (s : string) : string :=
  match s with
  | EmptyString => EmptyString
  | String c s' =>
      let n := nat_of_ascii c in
      if is_upper c then
        String (if after_letter then ascii_of_nat (n + 32) else c) (ascii_title_from true s')
      else if is_lower c then
        String (if after_letter then c else ascii_of_nat (n - 32)) (ascii_title_from true s')
      else String c (ascii_title_from false s')
  end.

Definition ascii_title (s : string) : string := ascii_title_from false s.

(** The message of [HTTPStatusError] for a 503. *)
Definition unavailable_message (status_code : Z) (url : string) : string :=
  "Server error '" +:+ str_of_Z status_code +:+ " Service Unavailable' for url '" +:+
  url +:+ "'" +:+ nl +:+
  "For more information check: https://developer.mozilla.org/en-US/docs/Web/HTTP/Status/" +:+
  str_of_Z status_code.

(** Worlds for the synthesizer: every request fails to connect; every
    request times out with an exception that carries no message; the first
    URL is down and the second one is served. *)
Definition no_soup (text : string) : ScriptMaker.attempt ScriptMaker.document :=
  ScriptMaker.Failed "no document".

Definition down_world : ScriptMaker.world :=
  {| ScriptMaker.http_get := fun _ _ => ScriptMaker.GetRaises "[Errno 111] Connection refused";
     ScriptMaker.status_error := unavailable_message;
     ScriptMaker.parse_html := no_soup;
     ScriptMaker.str_title := ascii_title;
     ScriptMaker.messages_create := fun _ => ScriptMaker.Done ["Once upon a time."];
     ScriptMaker.finish_time := fun i => i |}.

Definition timeout_world : ScriptMaker.world :=
  {| ScriptMaker.http_get := fun _ _ => ScriptMaker.GetRaises EmptyString;
     ScriptMaker.status_error := unavailable_message;
     ScriptMaker.parse_html := no_soup;
     ScriptMaker.str_title := ascii_title;
     ScriptMaker.messages_create := fun _ => ScriptMaker.Done ["Once upon a time."];
     ScriptMaker.finish_time := fun i => i |}.

Definition mixed_urls : list string :=
  ["https://down.example/a"; "https://up.example/b"].

Definition mixed_world : ScriptMaker.world :=
  {| ScriptMaker.http_get := fun i _ =>
       match i with
       | O => ScriptMaker.GetResponse 503 "Service Unavailable"
       | _ => ScriptMaker.GetResponse 200 "<html><title>B</title><body>Body  of B</body></html>"
       end;
     ScriptMaker.status_error := unavailable_message;
     ScriptMaker.parse_html := fun _ =>
       ScriptMaker.Done {| ScriptMaker.soup_title := Some (Some "B");
                           ScriptMaker.soup_text := "BBody  of B" |};
     ScriptMaker.str_title := ascii_title;
     ScriptMaker.messages_create := fun _ => ScriptMaker.Done ["SCRIPT_BODY"];
     (* the second fetch completes first *)
     ScriptMaker.finish_time := fun i => (5 - i)%nat |}.

End Scenarios.

(** ** More concrete runs *)

Module Runs.
Import Py Scenarios.

(** A search answered by one hit object instead of a list of hits. *)
Definition single_hit_text : string :=
  "{" +:+ quoted "title" +:+ ": " +:+ quoted "Only hit" +:+ ", " +:+
  quoted "url" +:+ ": " +:+ quoted "https://only.example/" +:+ "}".

Definition single_hit : dict :=
  [("title", JStr "Only hit"); ("url", JStr "https://only.example/")].

Definition single_hit_runtime : runtime :=
  table_runtime [(envelope_text single_hit_text, envelope single_hit_text);
                 (single_hit_text, JDict single_hit)].

Definition single_hit_service : WebSearch.service :=
  fixed_service (WebSearch.PostResponse 200 (envelope_text single_hit_text)).

(** A response whose result holds the hits itself, under [results]. *)
Definition direct_text : string :=
  "{" +:+ quoted "result" +:+ ": {" +:+ quoted "results" +:+ ": " +:+
  two_hits_text +:+ "}}".

Definition direct_result : dict := [("results", JList two_hits)].

Definition direct_response : dict := [("result", JDict direct_result)].

Definition direct_runtime : runtime :=
  table_runtime [(direct_text, JDict direct_response)].

Definition direct_service : WebSearch.service :=
  fixed_service (WebSearch.PostResponse 200 direct_text).

(** A console that encodes ASCII only, and an endpoint that answers with a
    JSON-RPC error whose message holds the letter e with a circumflex
    (U+00EA). *)
Definition ascii_only (text : string) : bool :=
  forallb (fun c => (nat_of_ascii c <? 128)%nat) (list_ascii_of_string text).

Definition refused_message : string :=
  "Requ" +:+ String (ascii_of_nat 234) "te invalide".

Definition refused_text : string :=
  "{" +:+ quoted "jsonrpc" +:+ ": " +:+ quoted "2.0" +:+ ", " +:+
  quoted "error" +:+ ": {" +:+ quoted "message" +:+ ": " +:+
  quoted refused_message +:+ "}}".

Definition refused_response : json :=
  JDict [("jsonrpc", JStr "2.0");
         ("error", JDict [("message", JStr refused_message)])].

Definition refused_runtime : runtime :=
  {| json_loads := loads_table [(refused_text, refused_response)];
     float_of_str := fun _ => None;
     py_repr := fun _ => "<object>";
     exn_message := fun _ => "<message>";
     stdout_accepts := ascii_only |}.

Definition refused_service : WebSearch.service :=
  fixed_service (WebSearch.PostResponse 200 refused_text).

(** A result as the client makes it. *)
Definition plain_result : WebSearch.SearchResult :=
  {| WebSearch.title := "Zero relevance";
     WebSearch.url := "https://a.example/";
     WebSearch.description := EmptyString;
     WebSearch.relevance_score := float_half |}.

(** [str.lower] on ASCII text. *)
Fixpoint ascii_lower (s : string) : string :=
  match s with
  | EmptyString => EmptyString
  | String c s' =>
      String (if is_upper c then ascii_of_nat (nat_of_ascii c + 32) else c)
             (ascii_lower s')
  end.

(** A host on which the import, every write and every print succeed. *)
Definition plain_host : Pipeline.host :=
  {| Pipeline.str_lower := ascii_lower;
     Pipeline.import_error := None;
     Pipeline.open_error := fun _ => None;
     Pipeline.write := fun _ _ => Pipeline.Written;
     Pipeline.report_error := fun _ _ => None;
     Pipeline.handler_error := fun _ => None;
     Pipeline.timestamp := "20261103_101500" |}.

(** A host on which the text of a script cannot be encoded for the file:
    the write raises and leaves the file empty. *)
Definition strict_host : Pipeline.host :=
  {| Pipeline.str_lower := ascii_lower;
     Pipeline.import_error := None;
     Pipeline.open_error := fun _ => None;
     Pipeline.write := fun _ _ =>
       Pipeline.WriteRaises "'utf-8' codec can't encode character" EmptyString;
     Pipeline.report_error := fun _ _ => None;
     Pipeline.handler_error := fun _ => None;
     Pipeline.timestamp := "20261103_101500" |}.

Definition empty_run : Pipeline.run_state :=
  {| Pipeline.calls := []; Pipeline.files := [] |}.

End Runs.

(** * Properties *)

(** ** Strings, slices and truth values *)

Module PyFacts.
Import Py.

Lemma append_cons (x : ascii) (a b : string) :
  String x a +:+ b = String x (a +:+ b).
Proof. reflexivity. Qed.

Lemma append_assoc (a b c : string) : (a +:+ b) +:+ c = a +:+ (b +:+ c).
Proof.
  induction a as [|x a IH]; [done|].
  rewrite !append_cons. by f_equal.
Qed.

Lemma append_empty_r (a : string) : a +:+ EmptyString = a.
Proof.
  induction a as [|x a IH]; [done|].
  rewrite append_cons. by f_equal.
Qed.

Lemma length_append (a b : string) :
  String.length (a +:+ b) = (String.length a + String.length b)%nat.
Proof.
  induction a as [|x a IH]; [done|].
  rewrite append_cons. simpl. by f_equal.
Qed.

Lemma str_take_length (n : nat) (s : string) :
  (String.length (str_take n s) <= n)%nat.
Proof.
  revert n. induction s as [|c s IH]; intros [|n]; simpl; try lia.
  specialize (IH n). lia.
Qed.

Lemma str_take_nonempty (n : nat) (s : string) :
  s <> EmptyString -> str_take (S n) s <> EmptyString.
Proof. destruct s; simpl; [done | discriminate]. Qed.

Lemma py_truthy_str (s : string) : py_truthy (JStr s) = true <-> s <> EmptyString.
Proof.
  simpl. destruct (String.eqb_spec s EmptyString); simpl; split; congruence.
Qed.

Lemma py_str_nonempty (rt : runtime) (v : json) :
  (forall x, py_repr rt x <> EmptyString) ->
  py_truthy v = true -> py_str rt v <> EmptyString.
Proof.
  intros Hrepr Hv. destruct v; simpl; auto.
  by apply py_truthy_str.
Qed.

Lemma py_or_truthy (a b : json) :
  py_truthy (py_or a b) = py_truthy a || py_truthy b.
Proof. unfold py_or. destruct (py_truthy a) eqn:E; simpl; [exact E | done]. Qed.

Lemma py_or_falsy_l (a b : json) : py_truthy a = false -> py_or a b = b.
Proof. unfold py_or. by intros ->. Qed.

Lemma py_or_truthy_l (a b : json) : py_truthy a = true -> py_or a b = a.
Proof. unfold py_or. by intros ->. Qed.

Lemma py_or_null_l (b : json) : py_or JNull b = b.
Proof. reflexivity. Qed.

Lemma py_slice_upto_nonneg {A : Type} (n : Z) (l : list A) :
  0 <= n -> py_slice_upto n l = take (Z.to_nat n) l.
Proof. unfold py_slice_upto. intros H. by rewrite (proj2 (Z.leb_le 0 n) H). Qed.

Lemma dict_get_absent (k : string) (d : dict) :
  dict_lookup k d = None -> dict_get k d = JNull.
Proof. unfold dict_get. by intros ->. Qed.

Section Omap.

Context {A B : Type} (f : A -> option B).

Lemma length_omap_le (l : list A) : (length (omap f l) <= length l)%nat.
Proof.
  induction l as [|x l IH]; csimpl; [done|].
  destruct (f x); simpl; lia.
Qed.

Lemma length_omap_lt (l : list A) (x : A) :
  x ∈ l -> f x = None -> (length (omap f l) < length l)%nat.
Proof.
  induction 1 as [x l|x y l Hin IH]; intros Hx; csimpl.
  - rewrite Hx. pose proof (length_omap_le l). lia.
  - specialize (IH Hx). destruct (f y); simpl; lia.
Qed.

Lemma length_omap_all (l : list A) :
  Forall (fun x => is_Some (f x)) l -> length (omap f l) = length l.
Proof.
  induction 1 as [|x l [y Hy] _ IH]; csimpl; [done|].
  rewrite Hy. simpl. by rewrite IH.
Qed.

End Omap.

Lemma imap_twice {A B C : Type} (f : nat -> B -> C) (g : nat -> A -> B) (l : list A) :
  imap f (imap g l) = imap (fun i x => f i (g i x)) l.
Proof.
  revert f g. induction l as [|x l IH]; intros f g; simpl; [done|].
  f_equal. apply (IH (f ∘ S) (g ∘ S)).
Qed.

Lemma omap_id_Some {A : Type} (l : list A) : omap id (Some <$> l) = l.
Proof. induction l as [|x l IH]; csimpl; [done | by rewrite IH]. Qed.

End PyFacts.

(** ** The search client *)

Module WebSearchFacts.
Import Py WebSearch PyFacts.

Section Client.

Variable rt : runtime.
Variable svc : service.

(** *** One hit *)

Lemma hit_title_truthy (item : dict) : py_truthy (hit_title item) = true.
Proof.
  unfold hit_title. rewrite py_or_truthy. apply orb_true_iff. by right.
Qed.

(** [_create_search_result] keeps a hit exactly when its score converts and
    its url chain ends on a true value. *)
Lemma create_search_result_unfold (item : dict) :
  _create_search_result rt item =
  match hit_score rt item with
  | Err _ => None
  | Ok sc =>
      if py_truthy (hit_url item) then
        Some {| title := str_take 200 (py_str rt (hit_title item));
                url := py_str rt (hit_url item);
                description := str_take 300 (py_str rt (hit_description item));
                relevance_score := sc |}
      else None
  end.
Proof.
  unfold _create_search_result. destruct (hit_score rt item); [|done].
  by rewrite hit_title_truthy, andb_true_r.
Qed.

Lemma created_result_inv (item : dict) (r : SearchResult) :
  _create_search_result rt item = Some r ->
  py_truthy (hit_url item) = true /\
  hit_score rt item = Ok (relevance_score r) /\
  title r = str_take 200 (py_str rt (hit_title item)) /\
  url r = py_str rt (hit_url item) /\
  description r = str_take 300 (py_str rt (hit_description item)).
Proof.
  rewrite create_search_result_unfold.
  destruct (hit_score rt item) as [sc|]; [|done].
  destruct (py_truthy (hit_url item)); [|done].
  intros [= <-]. done.
Qed.

Lemma hit_score_unfold (item : dict) :
  hit_score rt item =
  match py_float rt (dict_get_default "relevance_score" (JFloat float_zero) item) with
  | Err e => Err e
  | Ok a =>
      if float_truthy a then Ok a
      else py_float rt (dict_get_default "score" (JFloat float_zero) item)
  end.
Proof. reflexivity. Qed.

Lemma hit_url_falsy (item : dict) :
  dict_lookup "url" item = None ->
  dict_lookup "link" item = None ->
  dict_lookup "href" item = None ->
  py_truthy (hit_url item) = false.
Proof.
  intros H1 H2 H3. unfold hit_url.
  by rewrite (dict_get_absent _ _ H1), (dict_get_absent _ _ H2), (dict_get_absent _ _ H3).
Qed.

(** A hit made of a url and a snippet. *)
Lemma url_and_snippet_hit (u s : string) :
  u <> EmptyString ->
  let item := [("url", JStr u); ("snippet", JStr s)] in
  hit_url item = JStr u /\ hit_title item = JStr "Search Result" /\
  py_str rt (hit_description item) = s /\ hit_score rt item = Ok float_zero.
Proof.
  intros Hu%py_truthy_str item.
  split; [|split; [reflexivity|split; [|reflexivity]]].
  - unfold hit_url, dict_get. cbn [item dict_lookup String.eqb Ascii.eqb Bool.eqb default].
    by rewrite !(py_or_truthy_l (JStr u)).
  - unfold hit_description, dict_get.
    cbn [item dict_lookup String.eqb Ascii.eqb Bool.eqb default].
    rewrite py_or_null_l.
    destruct (py_truthy (JStr s)) eqn:Hs.
    + by rewrite !(py_or_truthy_l (JStr s)).
    + rewrite (py_or_falsy_l (JStr s)), !py_or_null_l by done.
      simpl in Hs.
      destruct (String.eqb_spec s EmptyString) as [->|]; simpl in Hs;
        [reflexivity|congruence].
Qed.

(** *** The loops *)

Lemma collected_result_created (items : list json) (r : SearchResult) :
  r ∈ collect_results rt items ->
  exists item, _create_search_result rt item = Some r.
Proof.
  unfold collect_results. rewrite list_elem_of_omap.
  intros ([] & _ & H); simpl in H; try done. eauto.
Qed.

Lemma sliced_result_created (v : json) (n : Z) (r : SearchResult) :
  r ∈ results_of_slice rt v n ->
  exists item, _create_search_result rt item = Some r.
Proof.
  unfold results_of_slice. destruct (slice_items v n).
  - apply collected_result_created.
  - by intros ?%elem_of_nil.
Qed.

Lemma parsed_result_created (data : json) (n : Z) (r : SearchResult) :
  r ∈ _parse_search_results rt data n ->
  exists item, _create_search_result rt item = Some r.
Proof.
  destruct data as [| | | | |l|d]; simpl; try by intros ?%elem_of_nil.
  - apply collected_result_created.
  - destruct (dict_lookup "results" d); [apply sliced_result_created|].
    destruct (dict_lookup "links" d); [apply sliced_result_created|].
    destruct (dict_has "url" d); [|by intros ?%elem_of_nil].
    destruct (_create_search_result rt d) eqn:E; [|by intros ?%elem_of_nil].
    intros ->%list_elem_of_singleton. eauto.
Qed.

(** *** The response *)

Local Ltac parsed_case :=
  lazymatch goal with
  | |- Ok (_parse_search_results _ ?data _) = Ok _ -> _ =>
      intros ?; left; exists data; congruence
  | |- Ok (_parse_text_results ?text _) = Ok _ -> _ =>
      intros ?; right; exists text; congruence
  end.

Lemma decode_text_cases (v : json) (query : string) (n : Z) (rs : list SearchResult) :
  decode_text rt v query n = Ok rs ->
  (exists data, rs = _parse_search_results rt data n) \/
  (exists text, rs = _parse_text_results text query).
Proof.
  destruct v; simpl; try done.
  destruct (json_loads rt s) as [data|[]]; try done; parsed_case.
Qed.

Lemma extract_results_cases (response : json) (query : string) (n : Z)
    (rs : list SearchResult) :
  extract_results rt response query n = Ok rs ->
  (exists data, rs = _parse_search_results rt data n) \/
  (exists text, rs = _parse_text_results text query).
Proof.
  unfold extract_results.
  destruct (py_get response "result" (JDict [])) as [result_data|]; [simpl|done].
  destruct (py_in "content" result_data) as [[]|]; simpl; try done.
  - destruct (py_getitem result_data "content") as [content|]; [simpl|done].
    destruct content as [| | | |s|[|[| | | | | |first] ?]|]; cbv beta iota;
      try parsed_case.
    + apply decode_text_cases.
    + destruct (dict_lookup "text" first).
      * apply decode_text_cases.
      * parsed_case.
  - parsed_case.
Qed.

Lemma search_cases (query : string) (n : Z) (news_only : bool) (days_back : Z) :
  search rt svc query n news_only days_back = Ok [] \/
  (exists data,
     search rt svc query n news_only days_back = Ok (_parse_search_results rt data n)) \/
  (exists text,
     search rt svc query n news_only days_back = Ok (_parse_text_results text query)) \/
  search rt svc query n news_only days_back = Err UnicodeEncodeError.
Proof.
  assert (forall e,
            match py_print rt ("Error during blaxel-search: " +:+ str_exn rt e) with
            | Ok _ => Ok []
            | Err raised => Err raised
            end = Ok ([] : list SearchResult) \/
            match py_print rt ("Error during blaxel-search: " +:+ str_exn rt e) with
            | Ok _ => Ok ([] : list SearchResult)
            | Err raised => Err raised
            end = Err UnicodeEncodeError) as Hcaught.
  { intros e. unfold py_print. destruct (stdout_accepts rt _); [by left|by right]. }
  unfold search, search_body.
  destruct (search_arguments svc query n news_only days_back) as [a|e]; simpl.
  2: { destruct (Hcaught e) as [->| ->]; [by left|by do 3 right]. }
  destruct (_send_mcp_request rt svc "tools/call" (Some (tool_call a))) as [a0|e]; simpl.
  2: { destruct (Hcaught e) as [->| ->]; [by left|by do 3 right]. }
  destruct (extract_results rt a0 query n) as [results|e] eqn:E.
  - apply extract_results_cases in E as [[data ->]|[text ->]].
    + right. left. by exists data.
    + right. right. left. by exists text.
  - destruct (Hcaught e) as [->| ->]; [by left|by do 3 right].
Qed.

(** [search] returns what its body returns. *)
Lemma search_of_body (query : string) (n : Z) (news_only : bool) (days_back : Z)
    (results : list SearchResult) :
  search_body rt svc query n news_only days_back = Ok results ->
  search rt svc query n news_only days_back = Ok results.
Proof. unfold search. by intros ->. Qed.

Lemma send_request_ok (method : string) (params : option json)
    (body : string) (response_data : dict) :
  post svc (request_data svc method params) = PostResponse 200 body ->
  json_loads rt body = Ok (JDict response_data) ->
  dict_lookup "error" response_data = None ->
  _send_mcp_request rt svc method params = Ok (JDict response_data).
Proof.
  intros Hpost Hbody Herr. unfold _send_mcp_request.
  rewrite Hpost. simpl. rewrite Hbody. simpl.
  unfold dict_has. by rewrite Herr.
Qed.

(** A payload that is no dict makes the body of [search] raise. *)
Lemma send_then_extract_non_dict (method : string) (params : option json)
    (body : string) (v : json) (query : string) (n : Z) :
  post svc (request_data svc method params) = PostResponse 200 body ->
  json_loads rt body = Ok v ->
  is_dict v = false ->
  raises (response <- _send_mcp_request rt svc method params ;
          extract_results rt response query n).
Proof.
  intros Hpost Hbody Hv. unfold _send_mcp_request, raises.
  rewrite Hpost. simpl. rewrite Hbody.
  destruct v as [| | | |s|l|]; simpl in *; try done; eauto.
  - destruct (str_contains "error" s); simpl; eauto.
  - destruct (existsb (is_str "error") l); simpl; eauto.
Qed.

(** *** Claims about the search client *)

(** C4 (as amended).  Every [SearchResult] that [search] returns is of one of
    two shapes.  One made from a structured hit has a non-empty title and a
    non-empty url, a title of at most 200 characters and a description of at
    most 300.  The degraded result made from freeform text has an empty url,
    the title ["Search results for: " + query] (of any length), a description
    of at most 303 characters and the score 0.5.  [str] of a value that is
    not a string is assumed never to be empty, as in Python. *)
Theorem search_result_shapes (query : string) (max_results : Z)
    (news_only : bool) (days_back : Z) (results : list SearchResult)
    (r : SearchResult) :
  (forall v, py_repr rt v <> EmptyString) ->
  search rt svc query max_results news_only days_back = Ok results ->
  r ∈ results ->
  (url r <> EmptyString /\ title r <> EmptyString /\
   (String.length (title r) <= 200)%nat /\
   (String.length (description r) <= 300)%nat)
  \/
  (url r = EmptyString /\ title r = "Search results for: " +:+ query /\
   (String.length (description r) <= 303)%nat /\
   relevance_score r = float_half).
Proof.
  intros Hrepr Hsearch Hr.
  destruct (search_cases query max_results news_only days_back)
    as [E|[[data E]|[[text E]|E]]]; rewrite E in Hsearch; [| | |done];
    injection Hsearch as <-.
  - by apply elem_of_nil in Hr.
  - left. apply parsed_result_created in Hr as [item Hitem].
    apply created_result_inv in Hitem as (Hurl & _ & Ht & Hu & Hd).
    rewrite Ht, Hu, Hd. repeat split.
    + by apply py_str_nonempty.
    + apply str_take_nonempty, py_str_nonempty; [done|apply hit_title_truthy].
    + apply str_take_length.
    + apply str_take_length.
  - right. apply list_elem_of_singleton in Hr as ->.
    cbn [url title description relevance_score]. repeat split.
    rewrite length_append.
    pose proof (str_take_length 300 text).
    destruct (300 <? String.length text)%nat; cbn [String.length]; lia.
Qed.


(** What [search] does with an exception of its body: it prints it and
    returns the empty list, unless the console cannot show the line, in
    which case the [UnicodeEncodeError] of [print] leaves [search]. *)
Lemma search_catches (query : string) (max_results : Z)
    (news_only : bool) (days_back : Z) (e : exn) :
  search_body rt svc query max_results news_only days_back = Err e ->
  search rt svc query max_results news_only days_back =
    if stdout_accepts rt ("Error during blaxel-search: " +:+ str_exn rt e)
    then Ok [] else Err UnicodeEncodeError.
Proof. intros He. unfold search, py_print. rewrite He. by destruct (stdout_accepts rt _). Qed.

(** The body of [search] on a response that holds an [error] member with a
    message. *)
Lemma search_body_mcp_error (query : string) (max_results : Z)
    (news_only : bool) (days_back : Z) (arguments : json) (body : string)
    (response_data error : dict) (message : json) :
  search_arguments svc query max_results news_only days_back = Ok arguments ->
  post svc (request_data svc "tools/call" (Some (tool_call arguments)))
    = PostResponse 200 body ->
  json_loads rt body = Ok (JDict response_data) ->
  dict_lookup "error" response_data = Some (JDict error) ->
  dict_lookup "message" error = Some message ->
  search_body rt svc query max_results news_only days_back
    = Err (MessageException ("MCP Error: " +:+ py_str rt message)).
Proof.
  intros Hargs Hpost Hbody Herror Hmessage. unfold search_body, _send_mcp_request.
  rewrite Hargs. simpl. rewrite Hpost. simpl. rewrite Hbody. simpl.
  unfold dict_has, dict_get. rewrite Herror. simpl.
  unfold dict_get_default. by rewrite Hmessage.
Qed.

(** C8 (as amended).  The score of a created result is
    [float(relevance_score)] when that field is present and its value is not
    zero; when the field is absent or its value is zero, the score is
    [float(score)] of the [score] field when present, else 0.0. *)
Theorem relevance_score_falls_back_on_zero (item : dict) (r : SearchResult) :
  _create_search_result rt item = Some r ->
  exists a,
    py_float rt (dict_get_default "relevance_score" (JFloat float_zero) item) = Ok a
    /\ (float_truthy a = true -> relevance_score r = a)
    /\ (float_truthy a = false ->
        py_float rt (dict_get_default "score" (JFloat float_zero) item)
          = Ok (relevance_score r))
    /\ (dict_lookup "relevance_score" item = None -> float_truthy a = false)
    /\ (float_truthy a = false -> dict_lookup "score" item = None ->
        relevance_score r = float_zero).
Proof.
  intros (_ & Hscore & _)%created_result_inv.
  rewrite hit_score_unfold in Hscore.
  destruct (py_float rt (dict_get_default "relevance_score" _ item)) as [a|] eqn:Ha;
    [|done].
  exists a. split; [done|].
  destruct (float_truthy a) eqn:Hta.
  - injection Hscore as <-. repeat split; try done.
    intros Hnone. unfold dict_get_default in Ha. rewrite Hnone in Ha.
    simpl in Ha. injection Ha as <-. done.
  - repeat split; try done.
    intros _ Hnone. unfold dict_get_default in Hscore. rewrite Hnone in Hscore.
    simpl in Hscore. by injection Hscore as <-.
Qed.

(** C9 (as amended).  A hit is dropped when [float] raises on its
    [relevance_score] field, and when that field is absent or converts to
    zero and [float] raises on its [score] field.  When [relevance_score]
    converts to a number other than zero, the [score] field is not looked
    at: whatever it holds, the hit is kept if it has a url. *)
Theorem unconvertible_score_drops_hit (item : dict) :
  (raises (py_float rt (dict_get_default "relevance_score" (JFloat float_zero) item)) ->
   _create_search_result rt item = None)
  /\ (forall a,
        py_float rt (dict_get_default "relevance_score" (JFloat float_zero) item) = Ok a ->
        float_truthy a = false ->
        raises (py_float rt (dict_get_default "score" (JFloat float_zero) item)) ->
        _create_search_result rt item = None)
  /\ (forall a,
        py_float rt (dict_get_default "relevance_score" (JFloat float_zero) item) = Ok a ->
        float_truthy a = true ->
        py_truthy (hit_url item) = true ->
        exists r, _create_search_result rt item = Some r /\ relevance_score r = a).
Proof.
  rewrite create_search_result_unfold, hit_score_unfold. repeat split.
  - by intros [e ->].
  - intros a -> -> [e ->]. done.
  - intros a -> -> ->. eauto.
Qed.


End Client.

(** *** Concrete runs of the search client *)

Import Scenarios.

(** C4, counterexample: the endpoint answers a search with a sentence; the
    one result that [search] returns has an empty url. *)
Lemma degraded_result_has_empty_url :
  search plain_runtime plain_service "rust compiler news" 5 true 7 =
    Ok [ {| title := "Search results for: rust compiler news";
            url := EmptyString;
            description := "No results were found for this query.";
            relevance_score := float_half |} ].
Proof. vm_compute. reflexivity. Qed.

Lemma search_result_shapes_witness :
  let r := {| title := "Rust 1.80 released";
              url := "https://blog.example/rust-1-80";
              description := "What is new in this release";
              relevance_score := float_zero |} in
  (url r <> EmptyString /\ title r <> EmptyString /\
   (String.length (title r) <= 200)%nat /\
   (String.length (description r) <= 300)%nat)
  \/
  (url r = EmptyString /\ title r = "Search results for: rust release" /\
   (String.length (description r) <= 303)%nat /\
   relevance_score r = float_half).
Proof.
  apply (search_result_shapes two_hits_runtime two_hits_service
           "rust release" 5 true 7
           [ {| title := "Rust 1.80 released";
                url := "https://blog.example/rust-1-80";
                description := "What is new in this release";
                relevance_score := float_zero |} ]).
  - intros v. discriminate.
  - vm_compute. reflexivity.
  - constructor.
Defined.



(** An endpoint that answers with HTML, on a console that shows every
    text: the exception is printed and no result comes back. *)
Example html_answer_gives_no_result :
  search two_hits_runtime html_service "rust release" 5 true 7 = Ok [].
Proof. reflexivity. Qed.

(** C6.  [search] can raise past its boundary.  The endpoint answers 200
    with a JSON-RPC error whose message holds a character the console
    cannot encode: the body of [search] raises the exception made from that
    message, the except clause prints it, and the [UnicodeEncodeError] of
    that [print] leaves [search], where the claim has an empty list. *)
Theorem search_raises_past_its_boundary :
  json_loads Runs.refused_runtime Runs.refused_text
    = Ok (JDict [("jsonrpc", JStr "2.0");
                 ("error", JDict [("message", JStr Runs.refused_message)])])
  /\ search_body Runs.refused_runtime Runs.refused_service "rust release" 5 true 7
    = Err (MessageException ("MCP Error: " +:+ Runs.refused_message))
  /\ stdout_accepts Runs.refused_runtime
       ("Error during blaxel-search: MCP Error: " +:+ Runs.refused_message) = false
  /\ search Runs.refused_runtime Runs.refused_service "rust release" 5 true 7
    = Err UnicodeEncodeError
  /\ search Runs.refused_runtime Runs.refused_service "rust release" 5 true 7 <> Ok [].
Proof.
  assert (search_body Runs.refused_runtime Runs.refused_service "rust release" 5 true 7
          = Err (MessageException ("MCP Error: " +:+ Runs.refused_message))) as Hbody.
  { eapply (search_body_mcp_error Runs.refused_runtime Runs.refused_service
              "rust release" 5 true 7 _ Runs.refused_text _ _
              (JStr Runs.refused_message));
      reflexivity. }
  split; [reflexivity|]. split; [exact Hbody|]. split; [reflexivity|].
  rewrite (search_catches _ _ _ _ _ _ _ Hbody). split; [reflexivity|discriminate].
Qed.

(** C8, counterexample: the hit has a [relevance_score] of 0.0 and a [score]
    of 0.5; the result carries 0.5. *)
Lemma zero_relevance_score_is_overridden :
  dict_lookup "relevance_score" zero_score_hit = Some (JFloat float_zero) /\
  _create_search_result plain_runtime zero_score_hit =
    Some {| title := "Zero relevance";
            url := "https://a.example/";
            description := EmptyString;
            relevance_score := float_half |}.
Proof. split; reflexivity. Qed.

Lemma relevance_score_falls_back_witness :
  exists a,
    py_float plain_runtime
      (dict_get_default "relevance_score" (JFloat float_zero) zero_score_hit) = Ok a
    /\ (float_truthy a = true -> float_half = a)
    /\ (float_truthy a = false ->
        py_float plain_runtime
          (dict_get_default "score" (JFloat float_zero) zero_score_hit) = Ok float_half)
    /\ (dict_lookup "relevance_score" zero_score_hit = None -> float_truthy a = false)
    /\ (float_truthy a = false -> dict_lookup "score" zero_score_hit = None ->
        float_half = float_zero).
Proof.
  exact (relevance_score_falls_back_on_zero plain_runtime zero_score_hit
           {| title := "Zero relevance";
              url := "https://a.example/";
              description := EmptyString;
              relevance_score := float_half |} eq_refl).
Defined.

(** C9, counterexample: the [score] field holds a text that is no number,
    next to a [relevance_score] of 0.5; the hit is kept. *)
Lemma text_score_next_to_relevance_is_kept :
  dict_lookup "score" text_score_hit = Some (JStr "high") /\
  py_float plain_runtime (JStr "high") = Err ValueError /\
  _create_search_result plain_runtime text_score_hit =
    Some {| title := "Scored twice";
            url := "https://b.example/";
            description := EmptyString;
            relevance_score := float_half |}.
Proof. repeat split. Qed.

Lemma unconvertible_score_witness :
  _create_search_result plain_runtime bad_relevance_hit = None.
Proof.
  apply (proj1 (unconvertible_score_drops_hit plain_runtime bad_relevance_hit)).
  exists ValueError. reflexivity.
Defined.


End WebSearchFacts.

(** ** Page fetcher and script synthesizer *)

Module ScriptMakerFacts.
Import Py ScriptMaker PyFacts.

Section Synthesizer.

Variable w : world.

(** *** The page fetcher *)

Lemma fetch_webpage_failed (i : nat) (u message : string) :
  fetch_body w i u = Failed message ->
  fetch_webpage w i u =
    {| url := u; title := None; content := None; success := false;
       error := Some message |}.
Proof. unfold fetch_webpage. by intros ->. Qed.

Lemma fetch_body_done (i : nat) (u : string) (page : FetchedPage) :
  fetch_body w i u = Done page ->
  url page = u /\ success page = true /\ is_Some (content page) /\ error page = None.
Proof.
  unfold fetch_body.
  destruct (http_get w i u) as [|status_code text]; [done|].
  destruct ((200 <=? status_code) && (status_code <=? 299)); [|done].
  destruct (parse_html w text) as [doc|]; [|done].
  intros H.
  match type of H with Done ?p = _ => assert (page = p) as -> by congruence end.
  cbn [url success content error]. repeat split. by eexists.
Qed.

Lemma fetch_webpage_url (i : nat) (u : string) : url (fetch_webpage w i u) = u.
Proof.
  unfold fetch_webpage. destruct (fetch_body w i u) eqn:E; [|done].
  by apply fetch_body_done in E as (? & _).
Qed.

Lemma fetch_webpage_content (i : nat) (u : string) :
  success (fetch_webpage w i u) = true -> is_Some (content (fetch_webpage w i u)).
Proof.
  unfold fetch_webpage. destruct (fetch_body w i u) eqn:E; [|done].
  by apply fetch_body_done in E as (_ & _ & ? & _).
Qed.

(** *** [asyncio.gather] *)

Section Gather.

Variable urls : list string.

Lemma length_complete_task (slots : list (option FetchedPage)) (i : nat) :
  length (complete_task w urls slots i) = length slots.
Proof.
  unfold complete_task. destruct (urls !! i); [|done]. apply length_insert.
Qed.

Lemma length_completed (order : list nat) (slots : list (option FetchedPage)) :
  length (foldl (complete_task w urls) slots order) = length slots.
Proof.
  revert slots. induction order as [|i order IH]; intros slots; simpl; [done|].
  by rewrite IH, length_complete_task.
Qed.

(** A slot holds the page of its task once the task has completed, and
    keeps it. *)
Lemma completed_slot (order : list nat) (slots : list (option FetchedPage))
    (j : nat) (u : string) :
  length slots = length urls ->
  urls !! j = Some u ->
  j ∈ order \/ slots !! j = Some (Some (fetch_webpage w j u)) ->
  foldl (complete_task w urls) slots order !! j = Some (Some (fetch_webpage w j u)).
Proof.
  revert slots. induction order as [|i order IH]; intros slots Hlen Hu Hj; simpl.
  - destruct Hj as [Hj|Hj]; [by apply elem_of_nil in Hj | done].
  - apply IH; [by rewrite length_complete_task | done |].
    destruct (decide (i = j)) as [->|Hne].
    + right. unfold complete_task. rewrite Hu.
      apply list_lookup_insert_eq. rewrite Hlen. by eapply lookup_lt_Some.
    + destruct Hj as [Hj|Hj].
      * left. apply elem_of_cons in Hj as [->|Hj]; done.
      * right. unfold complete_task. destruct (urls !! i); [|done].
        by rewrite list_lookup_insert_ne.
Qed.

Lemma completion_order_complete (j : nat) :
  (j < length urls)%nat -> j ∈ completion_order w (length urls).
Proof.
  intros Hj. unfold completion_order. rewrite merge_sort_Permutation.
  apply elem_of_seq. lia.
Qed.

(** The results of [gather] are the pages of the urls, in the order of the
    urls, whatever the order in which the fetches complete. *)
Lemma gather_in_url_order : gather w urls = imap (fetch_webpage w) urls.
Proof.
  unfold gather.
  set (slots := foldl _ _ _).
  assert (slots = Some <$> imap (fetch_webpage w) urls) as ->;
    [|apply omap_id_Some].
  assert (length slots = length urls) as Hlen.
  { unfold slots. by rewrite length_completed, length_replicate. }
  apply list_eq. intros j.
  rewrite list_lookup_fmap, list_lookup_imap.
  destruct (urls !! j) as [u|] eqn:Hu; simpl.
  - apply completed_slot; [by rewrite length_replicate | done |].
    left. apply completion_order_complete. by eapply lookup_lt_Some.
  - apply lookup_ge_None. rewrite Hlen. by apply lookup_ge_None.
Qed.

End Gather.

(** *** The loops *)

Lemma str_concat_app (l k : list string) :
  str_concat (l ++ k) = str_concat l +:+ str_concat k.
Proof.
  induction l as [|x l IH]; simpl; [done|].
  by rewrite IH, append_assoc.
Qed.

(** Numbering the results does not change which of them are successful. *)
Lemma successful_numbered (f : nat -> nat) (results : list FetchedPage) :
  snd <$> List.filter (fun p => success (snd p)) (imap (fun i r => (f i, r)) results)
  = successful results.
Proof.
  revert f. induction results as [|r results IH]; intros f; simpl; [done|].
  unfold successful. simpl. destruct (success r); csimpl; [f_equal|]; apply (IH (f ∘ S)).
Qed.

Lemma podcast_loop (numbered : list (nat * FetchedPage))
    (context : string) (k : nat) (summaries : list string) :
  foldl podcast_step (context, k, summaries) numbered =
    (context +:+ str_concat ((fun p => podcast_block (fst p) (snd p)) <$> numbered),
     (k + length (snd <$> List.filter (fun p => success (snd p)) numbered))%nat,
     summaries ++
       (source_summary <$> (snd <$> List.filter (fun p => success (snd p)) numbered))).
Proof.
  revert context k summaries.
  induction numbered as [|[i r] numbered IH]; intros context k summaries; simpl.
  - by rewrite append_empty_r, Nat.add_0_r, app_nil_r.
  - unfold podcast_block at 1. simpl. destruct (success r); rewrite IH; csimpl.
    + rewrite append_assoc, <- app_assoc. repeat f_equal. lia.
    + by rewrite append_assoc.
Qed.

Lemma first_text_answer (request : completion_request) (wrap : string -> string)
    (calls : list completion_request) :
  bindM (first_text w request) (fun text => ret (wrap text)) calls
  = (answer w request wrap, calls ++ [request]).
Proof.
  unfold bindM, first_text, ret, answer.
  by destruct (messages_create w request) as [[|text more]|message].
Qed.

Lemma success_only_loop (block : nat -> FetchedPage -> string)
    (step : string * list string -> nat * FetchedPage -> string * list string)
    (numbered : list (nat * FetchedPage)) (context : string) (summaries : list string) :
  (forall context summaries i r,
     step (context, summaries) (i, r) =
       if success r then (context +:+ block i r, summaries ++ [source_summary r])
       else (context, summaries)) ->
  foldl step (context, summaries) numbered =
    (context +:+ str_concat ((fun p => success_only block (fst p) (snd p)) <$> numbered),
     summaries ++
       (source_summary <$> (snd <$> List.filter (fun p => success (snd p)) numbered))).
Proof.
  intros Hstep. revert context summaries.
  induction numbered as [|[i r] numbered IH]; intros context summaries; simpl.
  - by rewrite append_empty_r, app_nil_r.
  - rewrite Hstep. unfold success_only at 1. simpl.
    destruct (success r); rewrite IH; simpl.
    + by rewrite append_assoc, <- app_assoc.
    + done.
Qed.

Lemma analysis_loop_closed (numbered : list (nat * FetchedPage))
    (context : string) (summaries : list string) :
  Forall (fun p => success (snd p) = true -> is_Some (content (snd p))) numbered ->
  analysis_loop numbered context summaries =
    Done
      (context +:+
         str_concat ((fun p => success_only analysis_block (fst p) (snd p)) <$> numbered),
       summaries ++
         (source_summary <$> (snd <$> List.filter (fun p => success (snd p)) numbered))).
Proof.
  intros Hall. revert context summaries.
  induction Hall as [|[i r] numbered Hr _ IH]; intros context summaries; simpl.
  - by rewrite append_empty_r, app_nil_r.
  - unfold success_only at 1. simpl in *. destruct (success r).
    + destruct Hr as [text Htext]; [done|]. unfold analysis_block at 1.
      rewrite Htext. simpl. rewrite IH. by rewrite append_assoc, <- app_assoc.
    + by rewrite IH.
Qed.

Lemma numbered_blocks (block : nat -> FetchedPage -> string) (results : list FetchedPage) :
  (fun p => block (fst p) (snd p)) <$> enumerate_from_1 results
  = imap (fun i => block (S i)) results.
Proof. unfold enumerate_from_1. by rewrite fmap_imap. Qed.

Lemma numbered_successful (results : list FetchedPage) :
  snd <$> List.filter (fun p => success (snd p)) (enumerate_from_1 results)
  = successful results.
Proof. apply successful_numbered. Qed.

(** *** The four tools, in closed form *)

Lemma generate_podcast_script_closed (urls : list string)
    (podcast_style episode_length tone target_audience : string)
    (calls : list completion_request) :
  generate_podcast_script w urls podcast_style episode_length tone target_audience calls =
    let results := imap (fetch_webpage w) urls in
    let k := length (successful results) in
    let sources := source_list results in
    let request :=
      completion 8000 (Some (7 # 10)%Q)
        (podcast_prompt k (podcast_context results) podcast_style episode_length
                        tone target_audience sources) in
    if (k =? 0)%nat then (Done refusal, calls)
    else (answer w request
            (fun text => podcast_response w urls k podcast_style episode_length
                                          tone target_audience text sources),
          calls ++ [request]).
Proof.
  unfold generate_podcast_script.
  rewrite gather_in_url_order, podcast_loop, numbered_blocks, numbered_successful.
  cbv beta iota zeta. rewrite app_nil_l, Nat.add_0_l.
  destruct (length (successful (imap (fetch_webpage w) urls)) =? 0)%nat; [done|].
  apply first_text_answer.
Qed.

Lemma generate_storytelling_podcast_closed (urls : list string)
    (narrative_style narrator_voice : string) (calls : list completion_request) :
  generate_storytelling_podcast w urls narrative_style narrator_voice calls =
    let results := imap (fetch_webpage w) urls in
    let sources := source_list results in
    let request :=
      completion 8000 (Some (8 # 10)%Q)
        (storytelling_prompt (story_context results) narrative_style narrator_voice) in
    (answer w request
       (fun text => storytelling_response w narrative_style narrator_voice text sources),
     calls ++ [request]).
Proof.
  unfold generate_storytelling_podcast.
  rewrite gather_in_url_order.
  rewrite (success_only_loop story_block) by (by intros ? ? ? []).
  rewrite numbered_blocks, numbered_successful.
  cbv beta iota zeta. rewrite app_nil_l.
  apply first_text_answer.
Qed.

Lemma analyze_sources_for_podcast_closed (urls : list string)
    (podcast_type : string) (calls : list completion_request) :
  analyze_sources_for_podcast w urls podcast_type calls =
    let results := imap (fetch_webpage w) urls in
    let request :=
      completion 4096 None (analysis_prompt podcast_type (analysis_context results)) in
    (answer w request (fun text => analysis_response text (source_list results)),
     calls ++ [request]).
Proof.
  unfold analyze_sources_for_podcast.
  rewrite gather_in_url_order, analysis_loop_closed.
  - rewrite numbered_blocks, numbered_successful.
    cbv beta iota zeta. rewrite app_nil_l.
    apply first_text_answer.
  - apply Forall_forall. intros [i r] Hin. simpl.
    apply elem_of_lookup_imap in Hin as (j & r' & [= -> ->] & Hr).
    apply list_lookup_imap_Some in Hr as (u & _ & ->).
    apply fetch_webpage_content.
Qed.

Lemma compare_sources_podcast_closed (urls : list string)
    (comparison_angle : string) (calls : list completion_request) :
  compare_sources_podcast w urls comparison_angle calls =
    let results := imap (fetch_webpage w) urls in
    let request :=
      completion 8000 (Some (7 # 10)%Q)
        (comparison_prompt comparison_angle (compare_context results)) in
    (answer w request
       (fun text => comparison_response urls comparison_angle text (source_list results)),
     calls ++ [request]).
Proof.
  unfold compare_sources_podcast.
  rewrite gather_in_url_order.
  rewrite (success_only_loop success_block) by (by intros ? ? ? []).
  rewrite numbered_blocks, numbered_successful.
  cbv beta iota zeta. rewrite app_nil_l.
  apply first_text_answer.
Qed.

Lemma no_success_iff (urls : list string) :
  successful (imap (fetch_webpage w) urls) = [] <->
  (forall i u, urls !! i = Some u -> success (fetch_webpage w i u) = false).
Proof.
  unfold successful. split.
  - intros Hnil i u Hu.
    destruct (success (fetch_webpage w i u)) eqn:Hs; [|done].
    assert (In (fetch_webpage w i u) (List.filter success (imap (fetch_webpage w) urls))) as Hin.
    { apply filter_In. split; [|done].
      apply list_elem_of_In, elem_of_lookup_imap. eauto. }
    by rewrite Hnil in Hin.
  - intros Hall.
    destruct (List.filter success (imap (fetch_webpage w) urls)) as [|r rs] eqn:E; [done|].
    assert (In r (List.filter success (imap (fetch_webpage w) urls))) as Hin
      by (rewrite E; by left).
    apply filter_In in Hin as [Hin Hs].
    apply list_elem_of_In, elem_of_lookup_imap in Hin as (i & u & -> & Hu).
    by rewrite (Hall i u Hu) in Hs.
Qed.

(** *** Claims about the fetcher and the synthesizer *)

(** C1.  When no fetch of the request succeeds, [generate_podcast_script]
    returns the sentence below and the log of completion requests is left
    as it was: no completion call is made. *)
Theorem no_successful_fetch_refuses (urls : list string)
    (podcast_style episode_length tone target_audience : string)
    (calls : list completion_request) :
  (forall i u, urls !! i = Some u -> success (fetch_webpage w i u) = false) ->
  generate_podcast_script w urls podcast_style episode_length tone target_audience calls
    = (Done "Error: Failed to fetch any webpages successfully. Please check the URLs.",
       calls).
Proof.
  intros Hnone%no_success_iff.
  rewrite generate_podcast_script_closed. cbv zeta. by rewrite Hnone.
Qed.


(** C3.  When at least one fetch succeeds, [generate_podcast_script] sends
    one completion request and returns the text of the service between its
    heading and the list of its sources.  The context in the prompt holds
    one block per url, in the order of the urls and numbered from 1: number,
    title, url and content for a fetch that succeeded, number, url and
    error otherwise.  The sources are listed in the order of the urls too.
    The order in which the fetches complete plays no part: [gather] gives
    the pages in the order of the urls. *)
Theorem partial_success_script_in_url_order (urls : list string)
    (podcast_style episode_length tone target_audience : string)
    (calls : list completion_request) :
  let results := imap (fetch_webpage w) urls in
  let k := length (successful results) in
  let block (i : nat) (u : string) : string :=
    if success (fetch_webpage w i u) then
      "## Source " +:+ str_of_nat (S i) +:+ ": " +:+
      fmt (title (fetch_webpage w i u)) +:+ nl +:+
      "URL: " +:+ u +:+ nl +:+ nl +:+
      fmt (content (fetch_webpage w i u)) +:+ nl +:+ nl +:+
      "---" +:+ nl +:+ nl
    else
      "## Source " +:+ str_of_nat (S i) +:+ ": FAILED" +:+ nl +:+
      "URL: " +:+ u +:+ nl +:+
      "Error: " +:+ fmt (error (fetch_webpage w i u)) +:+ nl +:+ nl in
  let context :=
    "# Source Material from Webpages:" +:+ nl +:+ nl +:+ str_concat (imap block urls) in
  let sources :=
    (fun page => "- " +:+ fmt (title page) +:+ " (" +:+ url page +:+ ")")
      <$> successful results in
  (1 <= k)%nat ->
  gather w urls = results
  /\ exists request instructions,
      prompt request =
        "You are a professional podcast scriptwriter. Based on the following source material from " +:+
        str_of_nat k +:+ " webpages, write a complete podcast script." +:+
        nl +:+ nl +:+ context +:+ instructions
      /\ generate_podcast_script w urls podcast_style episode_length tone
                                 target_audience calls
         = (match messages_create w request with
            | Done (text :: _) =>
                Done ("# PODCAST SCRIPT GENERATED" +:+ nl +:+ nl +:+
                      "**Episode Type:** " +:+
                      str_title w (replace_underscores podcast_style) +:+ nl +:+
                      "**Length:** " +:+ replace_underscores episode_length +:+ nl +:+
                      "**Tone:** " +:+ str_title w tone +:+ nl +:+
                      "**Target Audience:** " +:+ target_audience +:+ nl +:+
                      "**Sources Analyzed:** " +:+ str_of_nat k +:+ "/" +:+
                      str_of_nat (length urls) +:+ nl +:+ nl +:+
                      "---" +:+ nl +:+ nl +:+
                      text +:+ nl +:+ nl +:+
                      "---" +:+ nl +:+ nl +:+
                      "**Sources Referenced:**" +:+ nl +:+
                      str_join nl sources +:+ nl)
            | Done [] => Failed "list index out of range"
            | Failed message => Failed message
            end,
            calls ++ [request]).
Proof.
  intros results k block context sources Hk.
  split; [apply gather_in_url_order|].
  assert (podcast_context results = context) as Hcontext.
  { assert (imap (fun i => podcast_block (S i)) results = imap block urls) as E.
    { unfold results. rewrite imap_twice. apply imap_ext. intros i u _.
      unfold block, podcast_block, success_block, failure_block.
      by rewrite fetch_webpage_url. }
    unfold podcast_context, context. by rewrite E. }
  rewrite generate_podcast_script_closed. cbv zeta. fold results. fold k.
  destruct k as [|k'] eqn:Ek; [lia|]. cbn [Nat.eqb].
  rewrite Hcontext.
  do 2 eexists. split; [|reflexivity]. reflexivity.
Qed.

(** C7 (as amended).  [fetch_webpage] returns a page for every url and never
    raises.  When a statement of its body raises an exception [e] (the
    request fails or times out, the status is outside 200..299, the parser
    fails), the page has [success = false], no title, no content, and
    [str(e)] as its error; that string is empty when the exception carries
    no message. *)
Theorem fetch_webpage_failure_record (i : nat) (u : string) :
  (forall message, fetch_body w i u = Failed message ->
     fetch_webpage w i u =
       {| url := u; title := None; content := None; success := false;
          error := Some message |})
  /\ (forall message, http_get w i u = GetRaises message ->
        fetch_body w i u = Failed message)
  /\ (forall status_code text,
        http_get w i u = GetResponse status_code text ->
        status_code < 200 \/ 299 < status_code ->
        fetch_body w i u = Failed (status_error w status_code u))
  /\ (forall status_code text message,
        http_get w i u = GetResponse status_code text ->
        200 <= status_code <= 299 ->
        parse_html w text = Failed message ->
        fetch_body w i u = Failed message)
  /\ (success (fetch_webpage w i u) = false ->
      exists message,
        fetch_body w i u = Failed message /\
        error (fetch_webpage w i u) = Some message /\
        content (fetch_webpage w i u) = None /\
        title (fetch_webpage w i u) = None).
Proof.
  split; [apply fetch_webpage_failed|]. split.
  { intros message Hget. unfold fetch_body. by rewrite Hget. }
  split.
  { intros status_code text Hget Hstatus. unfold fetch_body. rewrite Hget.
    destruct ((200 <=? status_code) && (status_code <=? 299)) eqn:E; [|done].
    apply andb_true_iff in E as [?%Z.leb_le ?%Z.leb_le]. lia. }
  split.
  { intros status_code text message Hget [H1 H2] Hparse. unfold fetch_body.
    rewrite Hget, (proj2 (Z.leb_le _ _) H1), (proj2 (Z.leb_le _ _) H2). simpl.
    by rewrite Hparse. }
  intros Hfail. unfold fetch_webpage in *.
  destruct (fetch_body w i u) as [page|message] eqn:E.
  - apply fetch_body_done in E as (_ & Hs & _). congruence.
  - by exists message.
Qed.

End Synthesizer.

(** *** Concrete runs of the fetcher and the synthesizer *)

Import Scenarios.

Example clean_text_collapses_whitespace :
  clean_text "  Breaking   news
today

   more  text  " = "Breaking news today more text".
Proof. reflexivity. Qed.

(** The second fetch completes first; the pages come in the order of the
    urls. *)
Example gather_keeps_url_order :
  completion_order mixed_world 2 = [1; 0]%nat /\
  url <$> gather mixed_world mixed_urls = mixed_urls /\
  success <$> gather mixed_world mixed_urls = [false; true].
Proof. repeat split. Qed.

Lemma no_successful_fetch_refuses_witness :
  generate_podcast_script down_world
    ["https://down.example/a"; "https://down.example/b"]
    "solo_narrative" "medium_15_25_min" "casual" "general audience" []
  = (Done "Error: Failed to fetch any webpages successfully. Please check the URLs.",
     []).
Proof.
  apply (no_successful_fetch_refuses down_world).
  intros i u _. reflexivity.
Defined.


(** On the same urls the three other tools open their prompts as follows:
    the one block of each context carries the number 2, the position of the
    url that was served. *)
Example variant_contexts_number_by_url :
  (fun request =>
     String.prefix
       "You are a master storyteller and podcast scriptwriter. Based on the following source material, create a captivating narrative podcast script.

# Story Source Material:

## Source 2: B
BBody of B

---

" (prompt request))
    <$> snd (generate_storytelling_podcast mixed_world mixed_urls
               "documentary" "third_person_omniscient" [])
    = [true]
  /\ (fun request =>
       String.prefix
         "You are a podcast content strategist. Analyze the following sources to provide strategic recommendations for creating a educational podcast.

# Content to Analyze:

## Source 2: B
URL: https://up.example/b

BBody of B...

---

" (prompt request))
       <$> snd (analyze_sources_for_podcast mixed_world mixed_urls "educational" [])
       = [true]
  /\ (fun request =>
       String.prefix
         "You are creating a podcast that explores different perspectives. 

# Sources to Compare:

## Source 2: B
URL: https://up.example/b

BBody of B

---

" (prompt request))
       <$> snd (compare_sources_podcast mixed_world mixed_urls
                  "different perspectives" [])
       = [true].
Proof. vm_compute. repeat split. Qed.

(** The one url of the request cannot be fetched, and
    [generate_storytelling_podcast] sends a completion request all the same;
    its context is the bare header, without a block for the failed fetch. *)
Example storytelling_calls_service_without_sources :
  generate_storytelling_podcast down_world ["https://down.example/a"]
    "documentary" "third_person_omniscient" []
  = (Done (storytelling_response down_world "documentary" "third_person_omniscient"
             "Once upon a time." []),
     [completion 8000 (Some (8 # 10)%Q)
        (storytelling_prompt story_header "documentary" "third_person_omniscient")])
  /\ storytelling_response down_world "documentary" "third_person_omniscient"
       "Once upon a time." [] <> refusal.
Proof.
  split; [vm_compute; reflexivity|].
  vm_compute. discriminate.
Qed.

(** The first url answers 503 and the second one is served and completes
    first: the context of the one request numbers the blocks by the urls,
    and the script of the service comes back between heading and sources. *)
Example partial_success_context :
  prompt <$> snd (generate_podcast_script mixed_world mixed_urls
                    "solo_narrative" "medium_15_25_min" "casual" "general audience" [])
  = [podcast_prompt 1
       "# Source Material from Webpages:

## Source 1: FAILED
URL: https://down.example/a
Error: Server error '503 Service Unavailable' for url 'https://down.example/a'
For more information check: https://developer.mozilla.org/en-US/docs/Web/HTTP/Status/503

## Source 2: B
URL: https://up.example/b

BBody of B

---

"
       "solo_narrative" "medium_15_25_min" "casual" "general audience"
       ["- B (https://up.example/b)"]].
Proof. vm_compute. reflexivity. Qed.

Lemma partial_success_witness :
  exists request instructions,
    generate_podcast_script mixed_world mixed_urls
      "solo_narrative" "medium_15_25_min" "casual" "general audience" []
    = (Done "# PODCAST SCRIPT GENERATED

**Episode Type:** Solo Narrative
**Length:** medium 15 25 min
**Tone:** Casual
**Target Audience:** general audience
**Sources Analyzed:** 1/2

---

SCRIPT_BODY

---

**Sources Referenced:**
- B (https://up.example/b)
",
       [request])
    /\ prompt request =
         "You are a professional podcast scriptwriter. Based on the following source material from 1 webpages, write a complete podcast script.

# Source Material from Webpages:

## Source 1: FAILED
URL: https://down.example/a
Error: Server error '503 Service Unavailable' for url 'https://down.example/a'
For more information check: https://developer.mozilla.org/en-US/docs/Web/HTTP/Status/503

## Source 2: B
URL: https://up.example/b

BBody of B

---

" +:+ instructions.
Proof.
  assert (1 <= length (successful (imap (fetch_webpage mixed_world) mixed_urls)))%nat
    as Hk by (vm_compute; lia).
  destruct (partial_success_script_in_url_order mixed_world mixed_urls
              "solo_narrative" "medium_15_25_min" "casual" "general audience" [] Hk)
    as (_ & request & instructions & Hprompt & Hrun).
  exists request, instructions. split.
  - rewrite Hrun. vm_compute. reflexivity.
  - rewrite Hprompt. vm_compute. reflexivity.
Defined.

(** C7, counterexample: the request times out with an exception whose
    message is empty; the error string of the page is empty. *)
Lemma timeout_gives_empty_error :
  fetch_webpage timeout_world 0 "https://slow.example/" =
    {| url := "https://slow.example/"; title := None; content := None;
       success := false; error := Some EmptyString |}.
Proof. reflexivity. Qed.

Lemma fetch_webpage_failure_witness :
  fetch_webpage mixed_world 0 "https://down.example/a" =
    {| url := "https://down.example/a"; title := None; content := None;
       success := false;
       error := Some (unavailable_message 503 "https://down.example/a") |}.
Proof.
  destruct (fetch_webpage_failure_record mixed_world 0 "https://down.example/a")
    as (Hrecord & _ & Hstatus & _).
  apply Hrecord. apply (Hstatus 503 "Service Unavailable"); [reflexivity|lia].
Defined.

End ScriptMakerFacts.

(** ** More of the search client: transport, shapes, caps, manager *)

Module ClientFacts.
Import Py WebSearch SearchManager PyFacts WebSearchFacts.

Section Client.

Variable rt : runtime.
Variable svc : service.



(** *** Caps *)

Lemma length_slice_upto {A : Type} (n : Z) (l : list A) :
  0 <= n -> (length (py_slice_upto n l) <= Z.to_nat n)%nat.
Proof. intros Hn. rewrite py_slice_upto_nonneg by done. apply firstn_le_length. Qed.

Lemma length_collect_results (items : list json) :
  (length (collect_results rt items) <= length items)%nat.
Proof. apply length_omap_le. Qed.

Lemma length_results_of_slice (v : json) (n : Z) :
  0 <= n -> (length (results_of_slice rt v n) <= Z.to_nat n)%nat.
Proof.
  intros Hn. unfold results_of_slice.
  destruct v; simpl; try lia.
  - etransitivity; [apply length_collect_results|].
    rewrite length_map. by apply length_slice_upto.
  - etransitivity; [apply length_collect_results|]. by apply length_slice_upto.
Qed.

Lemma length_parsed (data : json) (n : Z) :
  0 <= n ->
  (length (_parse_search_results rt data n) <= Nat.max (Z.to_nat n) 1)%nat.
Proof.
  intros Hn. destruct data as [| | | | |l|d]; simpl; try lia.
  - pose proof (length_collect_results (py_slice_upto n l)).
    pose proof (length_slice_upto n l Hn). lia.
  - destruct (dict_lookup "results" d) as [v|].
    { pose proof (length_results_of_slice v n Hn). lia. }
    destruct (dict_lookup "links" d) as [v|].
    { pose proof (length_results_of_slice v n Hn). lia. }
    destruct (dict_has "url" d); [|simpl; lia].
    destruct (_create_search_result rt d); simpl; lia.
Qed.

(** X3.  For a cap that is not negative, [search] returns at most [max_results]
    results, or one result when the cap is 0: the degraded result and a
    payload that is itself a single result are returned whatever the cap. *)
Theorem search_result_count_bound (query : string) (max_results : Z)
    (news_only : bool) (days_back : Z) (results : list SearchResult) :
  0 <= max_results ->
  search rt svc query max_results news_only days_back = Ok results ->
  (length results <= Nat.max (Z.to_nat max_results) 1)%nat.
Proof.
  intros Hm Hsearch.
  destruct (search_cases rt svc query max_results news_only days_back)
    as [E|[[data E]|[[text E]|E]]]; rewrite E in Hsearch; [| | |done];
    injection Hsearch as <-.
  - simpl. lia.
  - by apply length_parsed.
  - simpl. lia.
Qed.


(** *** Shapes of the response *)

Lemma search_of_response (query : string) (max_results : Z) (news_only : bool)
    (days_back : Z) (arguments : json) (body : string) (response_data : dict) :
  search_arguments svc query max_results news_only days_back = Ok arguments ->
  post svc (request_data svc "tools/call" (Some (tool_call arguments)))
    = PostResponse 200 body ->
  json_loads rt body = Ok (JDict response_data) ->
  dict_lookup "error" response_data = None ->
  search rt svc query max_results news_only days_back =
    match extract_results rt (JDict response_data) query max_results with
    | Ok results => Ok results
    | Err e =>
        if stdout_accepts rt ("Error during blaxel-search: " +:+ str_exn rt e)
        then Ok [] else Err UnicodeEncodeError
    end.
Proof.
  intros Hargs Hpost Hbody Herr. unfold search, search_body, py_print.
  rewrite Hargs. simpl.
  rewrite (send_request_ok rt svc _ _ _ _ Hpost Hbody Herr). simpl.
  destruct (extract_results rt (JDict response_data) query max_results); [done|].
  by destruct (stdout_accepts rt _).
Qed.



(** *** Normalising twice *)

Lemma str_take_all (n : nat) (s : string) :
  (String.length s <= n)%nat -> str_take n s = s.
Proof.
  revert n. induction s as [|c s IH]; intros [|n]; simpl; intros H; try done; try lia.
  rewrite IH; [done | lia].
Qed.

Lemma canonical_hit_kept (r : SearchResult) :
  title r <> EmptyString -> url r <> EmptyString ->
  (String.length (title r) <= 200)%nat ->
  (String.length (description r) <= 300)%nat ->
  relevance_score r <> S754_zero true ->
  _create_search_result rt (hit_of_result r) = Some r.
Proof.
  destruct r as [t u d s]. simpl. intros Ht Hu Hlt Hld Hs.
  apply py_truthy_str in Ht, Hu.
  rewrite create_search_result_unfold.
  assert (hit_title (hit_of_result (mkSearchResult t u d s)) = JStr t) as ->.
  { unfold hit_title, dict_get, hit_of_result.
    cbn [dict_lookup String.eqb Ascii.eqb Bool.eqb default title].
    by rewrite !(py_or_truthy_l (JStr t)). }
  assert (hit_url (hit_of_result (mkSearchResult t u d s)) = JStr u) as ->.
  { unfold hit_url, dict_get, hit_of_result.
    cbn [dict_lookup String.eqb Ascii.eqb Bool.eqb default url].
    by rewrite !(py_or_truthy_l (JStr u)). }
  assert (py_str rt (hit_description (hit_of_result (mkSearchResult t u d s))) = d) as ->.
  { unfold hit_description, dict_get, hit_of_result.
    cbn [dict_lookup String.eqb Ascii.eqb Bool.eqb default description].
    destruct (py_truthy (JStr d)) eqn:Hd.
    - by rewrite !(py_or_truthy_l (JStr d)).
    - rewrite (py_or_falsy_l (JStr d)), !py_or_null_l by done.
      simpl in Hd.
      destruct (String.eqb_spec d EmptyString) as [->|]; simpl in Hd;
        [reflexivity|congruence]. }
  assert (hit_score rt (hit_of_result (mkSearchResult t u d s)) = Ok s) as ->.
  { rewrite hit_score_unfold. unfold dict_get_default, hit_of_result.
    cbn [dict_lookup String.eqb Ascii.eqb Bool.eqb default relevance_score py_float].
    destruct s as [[]| | |]; simpl; try done. }
  rewrite Hu. simpl. by rewrite !str_take_all.
Qed.

(** X7.  Normalising is idempotent up to the sign of a zero score: when a result
    made from a hit is fed back as a hit under the field names [title],
    [url], [description] and [relevance_score], the same result comes out,
    provided its score is not the negative zero (which would come out as
    0.0). *)
Theorem normalising_twice (item : dict) (r : SearchResult) :
  (forall v, py_repr rt v <> EmptyString) ->
  _create_search_result rt item = Some r ->
  relevance_score r <> S754_zero true ->
  _create_search_result rt (hit_of_result r) = Some r.
Proof.
  intros Hrepr Hr Hs.
  apply created_result_inv in Hr as (Hurl & _ & Ht & Hu & Hd).
  apply canonical_hit_kept; [| | | |done].
  - rewrite Ht. apply str_take_nonempty, py_str_nonempty; [done|apply hit_title_truthy].
  - rewrite Hu. by apply py_str_nonempty.
  - rewrite Ht. apply str_take_length.
  - rewrite Hd. apply str_take_length.
Qed.

(** *** The manager *)

Lemma search_or_empty (query : string) (max_results : Z) (news_only : bool)
    (days_back : Z) :
  match search rt svc query max_results news_only days_back with
  | Ok results => results
  | Err _ => []
  end =
  match search_body rt svc query max_results news_only days_back with
  | Ok results => results
  | Err _ => []
  end.
Proof.
  unfold search, py_print.
  destruct (search_body rt svc query max_results news_only days_back); [done|].
  by destruct (stdout_accepts rt _).
Qed.

Lemma search_for_links_search (user_input : string) (max_results : Z) :
  search_for_links rt svc user_input max_results =
    match search rt svc user_input max_results true 7 with
    | Ok results => results
    | Err _ => []
    end.
Proof.
  unfold search_for_links, search_for_topic, effective_max_results.
  simpl. by destruct (max_results =? 0).
Qed.


(** *** The listing *)

Section Listing.

Variable format_2f : spec_float -> string.

Lemma format_loop (numbered : list (nat * SearchResult)) (output : list string) :
  foldl (format_step format_2f) output numbered =
    output ++ concat ((fun p => result_lines format_2f (fst p) (snd p)) <$> numbered).
Proof.
  revert output. induction numbered as [|[i r] numbered IH]; intros output; simpl.
  - by rewrite app_nil_r.
  - rewrite IH. unfold result_lines at 1. simpl.
    destruct (negb (url r =? "")%string), (negb (description r =? "")%string),
      (SFltb float_zero (relevance_score r));
      simpl; rewrite <- ?app_assoc; simpl; done.
Qed.

Lemma format_results_listing (results : list SearchResult) :
  results <> [] ->
  format_results format_2f results = str_join nl (listing format_2f 1 results).
Proof.
  intros Hne. unfold format_results. destruct results as [|r results]; [done|].
  rewrite format_loop. unfold listing, ScriptMaker.enumerate_from_1.
  by rewrite fmap_imap.
Qed.

Lemma listing_app (start : nat) (a b : list SearchResult) :
  listing format_2f start (a ++ b)
  = listing format_2f start a ++ listing format_2f (start + length a) b.
Proof.
  unfold listing. rewrite imap_app, concat_app. do 2 f_equal.
  apply imap_ext. intros i r _. simpl. f_equal. lia.
Qed.

Lemma listing_cons (start : nat) (r : SearchResult) (b : list SearchResult) :
  listing format_2f start (r :: b)
  = result_lines format_2f start r ++ listing format_2f (S start) b.
Proof.
  unfold listing. rewrite imap_cons, concat_cons, Nat.add_0_r.
  f_equal. f_equal. apply imap_ext. intros i x _. simpl. f_equal. lia.
Qed.

(** X9.  [format_results] gives a fixed sentence for no result.  Otherwise it
    lists the results in their order, numbered from 1: the entry of a result
    holds its numbered title, then a line for its url, for its description
    and for its score, each only when the url or description is not empty
    and the score is above zero, then an empty line. *)
Theorem format_results_entries :
  format_results format_2f [] = "No relevant links found."
  /\ (forall a r b,
        format_results format_2f (a ++ r :: b) =
          str_join nl (listing format_2f 1 a ++
                       result_lines format_2f (S (length a)) r ++
                       listing format_2f (S (S (length a))) b))
  /\ (forall i r,
        head (result_lines format_2f i r) = Some (str_of_nat i +:+ ". " +:+ title r) /\
        last (result_lines format_2f i r) = Some EmptyString /\
        (2 <= length (result_lines format_2f i r) <= 5)%nat /\
        (url r = EmptyString -> description r = EmptyString ->
         SFltb float_zero (relevance_score r) = false ->
         length (result_lines format_2f i r) = 2%nat)).
Proof.
  split; [done|]. split.
  - intros a r b. rewrite format_results_listing by (by destruct a).
    by rewrite listing_app, listing_cons.
  - intros i r. unfold result_lines.
    destruct (negb (url r =? "")%string) eqn:Hu,
      (negb (description r =? "")%string) eqn:Hd,
      (SFltb float_zero (relevance_score r)) eqn:Hs; simpl;
      repeat split; try lia; try done;
      intros E1 E2; rewrite ?E1, ?E2 in *; simpl in *; congruence.
Qed.

End Listing.

End Client.

(** *** The request of the pipeline *)

Lemma news_search_body (rt : runtime) (svc' : service) (query : string)
    (max_results : Z) (start_date : string) :
  start_published_date svc' 7 = Ok start_date ->
  search_for_links rt svc' query max_results =
    match
      match post svc' (news_request svc' query max_results start_date) with
      | PostRaises => Err PlainException
      | PostResponse status_code text =>
          if negb (status_code =? 200) then Err PlainException
          else
            response <- (match json_loads rt text with
                         | Err JSONDecodeError => Err PlainException
                         | other => other
                         end) ;
            has_error <- py_in "error" response ;
            if has_error then Err PlainException
            else extract_results rt response query max_results
      end
    with
    | Ok results => results
    | Err _ => []
    end.
Proof.
  intros Hdate. rewrite search_for_links_search, search_or_empty.
  unfold search_body, search_arguments.
  cbn [negb Z.eqb]. rewrite Hdate. cbn [bind app].
  unfold _send_mcp_request, request_data, tool_call, news_request.
  cbn [default py_or py_truthy negb].
  destruct (post svc' _) as [|status_code text]; [done|].
  destruct (negb (status_code =? 200)); [done|].
  destruct (json_loads rt text) as [response|[]]; try done.
  cbn [bind]. destruct (py_in "error" response) as [[]|]; try done.
  cbn [bind]. destruct (py_getitem response "error") as [err|]; [|done].
  cbn [bind]. by destruct (py_get err "message" _).
Qed.


End ClientFacts.

(** ** The whitespace clean-up of the fetcher *)

Module CleanTextFacts.
Import Py ScriptMaker TextShape PyFacts.

(** *** Characters, ends and reversal *)

Lemma blank_is_space (c : ascii) : is_blank c = true -> is_space c = true.
Proof. unfold is_blank, is_space. intros H%Nat.eqb_eq. by rewrite H. Qed.

Lemma blank_no_boundary (c : ascii) : is_blank c = true -> is_line_boundary c = false.
Proof. unfold is_blank, is_line_boundary. intros H%Nat.eqb_eq. by rewrite H. Qed.

Lemma head_rev (l : list ascii) : head (rev l) = last l.
Proof.
  induction l as [|c l IH]; [done|].
  simpl rev. by rewrite head_snoc, IH, last_cons.
Qed.

Lemma last_rev (l : list ascii) : last (rev l) = head l.
Proof. destruct l as [|c l]; [done|]. simpl rev. by rewrite last_snoc. Qed.

Lemma starts_blank_not_space (l : list ascii) :
  (forall c, head l = Some c -> is_space c = false) -> starts_blank l = false.
Proof.
  unfold starts_blank. destruct (head l) as [c|]; [|done]. intros H. simpl.
  destruct (is_blank c) eqn:E; [|done].
  apply blank_is_space in E. by rewrite (H c) in E.
Qed.

Lemma ends_blank_not_space (l : list ascii) :
  (forall c, last l = Some c -> is_space c = false) -> ends_blank l = false.
Proof.
  unfold ends_blank. destruct (last l) as [c|]; [|done]. intros H. simpl.
  destruct (is_blank c) eqn:E; [|done].
  apply blank_is_space in E. by rewrite (H c) in E.
Qed.

Lemma has_double_space_cons (c : ascii) (l : list ascii) :
  has_double_space (c :: l) = is_blank c && starts_blank l || has_double_space l.
Proof. destruct l; simpl; [by rewrite andb_false_r|done]. Qed.

Lemma has_double_space_app (a b : list ascii) :
  has_double_space (a ++ b) =
    has_double_space a || has_double_space b || ends_blank a && starts_blank b.
Proof.
  induction a as [|c a IH]; [simpl; by rewrite orb_false_r|].
  rewrite <- app_comm_cons, !has_double_space_cons, IH.
  destruct a as [|c' a].
  - unfold ends_blank, starts_blank at 2. simpl.
    destruct (is_blank c), (starts_blank b), (has_double_space b); done.
  - unfold ends_blank. rewrite last_cons_cons. unfold starts_blank at 1 3.
    simpl head. simpl from_option.
    destruct (is_blank c), (is_blank c'), (has_double_space (c' :: a)),
      (has_double_space b), (from_option is_blank false (last (c' :: a))),
      (starts_blank b); done.
Qed.

Lemma has_double_space_rev (l : list ascii) :
  has_double_space (rev l) = has_double_space l.
Proof.
  induction l as [|c l IH]; [done|].
  simpl rev. rewrite has_double_space_app, IH, (has_double_space_cons c l).
  unfold ends_blank. rewrite last_rev. fold (starts_blank l).
  change (has_double_space [c]) with false.
  change (starts_blank [c]) with (is_blank c).
  destruct (is_blank c), (has_double_space l), (starts_blank l); done.
Qed.

(** *** [strip] *)

Lemma lstrip_suffix (s : list ascii) : exists p, s = p ++ lstrip s.
Proof.
  induction s as [|c s [p IH]]; [by exists []|]. simpl.
  destruct (is_space c); [|by exists []].
  exists (c :: p). simpl. by rewrite <- IH.
Qed.

Lemma lstrip_head (s : list ascii) (c : ascii) :
  head (lstrip s) = Some c -> is_space c = false.
Proof.
  induction s as [|c' s IH]; [done|]. simpl.
  destruct (is_space c') eqn:E; [done|]. simpl. congruence.
Qed.

Lemma lstrip_id (s : list ascii) :
  (forall c, head s = Some c -> is_space c = false) -> lstrip s = s.
Proof. destruct s as [|c s]; [done|]. intros H. simpl. by rewrite (H c). Qed.

Lemma strip_trimmed (s : list ascii) : trimmed (strip s).
Proof.
  unfold strip. split; intros c.
  - rewrite head_rev.
    destruct (lstrip_suffix (rev (lstrip s))) as [p Hp].
    destruct (lstrip (rev (lstrip s))) as [|c' rest] eqn:E; [done|].
    intros Hlast.
    assert (last (rev (lstrip s)) = Some c) as H.
    { rewrite Hp, last_app, Hlast. done. }
    rewrite last_rev in H. by apply lstrip_head in H.
  - rewrite last_rev. apply lstrip_head.
Qed.

Lemma strip_id (s : list ascii) : trimmed s -> strip s = s.
Proof.
  intros [Hhead Hlast]. unfold strip.
  rewrite (lstrip_id s) by done.
  rewrite (lstrip_id (rev s)) by (intros c; rewrite head_rev; apply Hlast).
  apply rev_involutive.
Qed.

Lemma lstrip_Forall (P : ascii -> Prop) (s : list ascii) :
  Forall P s -> Forall P (lstrip s).
Proof.
  destruct (lstrip_suffix s) as [p Hp]. rewrite Hp at 1.
  by intros [_ ?]%Forall_app.
Qed.

Lemma Forall_rev (P : ascii -> Prop) (s : list ascii) : Forall P s -> Forall P (rev s).
Proof.
  rewrite !Forall_forall. intros H c Hc. apply H.
  apply list_elem_of_In. apply list_elem_of_In in Hc. by apply in_rev.
Qed.

Lemma strip_Forall (P : ascii -> Prop) (s : list ascii) :
  Forall P s -> Forall P (strip s).
Proof. intros H. unfold strip. by apply Forall_rev, lstrip_Forall, Forall_rev, lstrip_Forall. Qed.

Lemma lstrip_single_spaced (s : list ascii) :
  has_double_space s = false -> has_double_space (lstrip s) = false.
Proof.
  destruct (lstrip_suffix s) as [p Hp]. rewrite Hp at 1.
  rewrite has_double_space_app. intros H.
  by apply orb_false_iff in H as [[_ ?]%orb_false_iff _].
Qed.

Lemma strip_single_spaced (s : list ascii) :
  has_double_space s = false -> has_double_space (strip s) = false.
Proof.
  intros H. unfold strip. rewrite has_double_space_rev.
  apply lstrip_single_spaced. rewrite has_double_space_rev.
  by apply lstrip_single_spaced.
Qed.

(** *** [splitlines] *)

Lemma splitlines_from_no_boundary (n : nat) (s line : list ascii) :
  (length s <= n)%nat ->
  no_line_boundary line ->
  Forall no_line_boundary (splitlines_from line s).
Proof.
  revert s line. induction n as [|n IH]; intros s line Hlen Hline.
  - destruct s; [|simpl in Hlen; lia]. simpl.
    destruct line; [done|]. apply Forall_cons. split; [|done]. by apply Forall_rev.
  - destruct s as [|c s]; simpl.
    { destruct line; [done|]. apply Forall_cons. split; [|done]. by apply Forall_rev. }
    simpl in Hlen. destruct (is_line_boundary c) eqn:Hc.
    + apply Forall_cons. split; [by apply Forall_rev|].
      destruct s as [|c' s]; [done|]. simpl in Hlen.
      destruct ((nat_of_ascii c =? 13)%nat && (nat_of_ascii c' =? 10)%nat);
        (apply IH; [simpl; lia|constructor]).
    + apply IH; [lia|]. by apply Forall_cons.
Qed.

Lemma splitlines_from_one_line (s line : list ascii) :
  no_line_boundary s -> rev line ++ s <> [] ->
  splitlines_from line s = [rev line ++ s].
Proof.
  revert line. induction s as [|c s IH]; intros line Hs Hne.
  - rewrite app_nil_r in *. simpl. destruct line; [done|done].
  - apply Forall_cons in Hs as [Hc Hs]. simpl. rewrite Hc.
    rewrite IH; [|done|].
    + simpl. by rewrite <- app_assoc.
    + simpl. rewrite <- app_assoc. simpl. by destruct (rev line).
Qed.

(** *** [split("  ")] *)

Lemma split_spaces_from_Forall (P : ascii -> Prop) (n : nat) (s phrase : list ascii) :
  (length s <= n)%nat ->
  Forall P phrase -> Forall P s ->
  Forall (Forall P) (split_spaces_from phrase s).
Proof.
  revert s phrase. induction n as [|n IH]; intros s phrase Hlen Hphrase Hs.
  - destruct s; [|simpl in Hlen; lia]. simpl.
    apply Forall_cons. split; [by apply Forall_rev|done].
  - destruct s as [|c s]; simpl.
    { apply Forall_cons. split; [by apply Forall_rev|done]. }
    simpl in Hlen. apply Forall_cons in Hs as [Hc Hs].
    destruct s as [|c' s].
    + apply IH; [simpl; lia|by apply Forall_cons|done].
    + simpl in Hlen.
      destruct ((nat_of_ascii c =? 32)%nat && (nat_of_ascii c' =? 32)%nat).
      * apply Forall_cons. split; [by apply Forall_rev|].
        apply Forall_cons in Hs as [_ Hs]. apply IH; [lia|done|done].
      * apply IH; [simpl; lia|by apply Forall_cons|done].
Qed.

Lemma split_spaces_from_single_spaced (n : nat) (s phrase : list ascii) :
  (length s <= n)%nat ->
  has_double_space phrase = false ->
  (starts_blank phrase = true -> starts_blank s = false) ->
  Forall (fun piece => has_double_space piece = false) (split_spaces_from phrase s).
Proof.
  revert s phrase. induction n as [|n IH]; intros s phrase Hlen Hphrase Hnext.
  - destruct s; [|simpl in Hlen; lia]. simpl.
    apply Forall_cons. split; [by rewrite has_double_space_rev|done].
  - destruct s as [|c s]; simpl.
    { apply Forall_cons. split; [by rewrite has_double_space_rev|done]. }
    simpl in Hlen.
    assert (has_double_space (c :: phrase) = false) as Hpush.
    { rewrite has_double_space_cons, Hphrase, orb_false_r.
      destruct (starts_blank phrase); [|by rewrite andb_false_r].
      specialize (Hnext eq_refl). unfold starts_blank in Hnext. simpl in Hnext.
      by rewrite Hnext. }
    destruct s as [|c' s].
    + apply IH; [simpl; lia|done|done].
    + simpl in Hlen.
      destruct ((nat_of_ascii c =? 32)%nat && (nat_of_ascii c' =? 32)%nat) eqn:E.
      * apply Forall_cons. split; [by rewrite has_double_space_rev|].
        apply IH; [lia|done|done].
      * apply IH; [simpl; lia|done|].
        unfold starts_blank. simpl. unfold is_blank. intros Hc.
        rewrite Hc in E. simpl in E. done.
Qed.

Lemma split_spaces_from_one_piece (s phrase : list ascii) :
  has_double_space s = false ->
  split_spaces_from phrase s = [rev phrase ++ s].
Proof.
  revert phrase. induction s as [|c s IH]; intros phrase Hs.
  - simpl. by rewrite app_nil_r.
  - destruct s as [|c' s].
    + done.
    + rewrite has_double_space_cons in Hs.
      apply orb_false_iff in Hs as [Hcc Hs].
      change (split_spaces_from phrase (c :: c' :: s)) with
        (if ((nat_of_ascii c =? 32)%nat && (nat_of_ascii c' =? 32)%nat)
         then rev phrase :: split_spaces_from [] s
         else split_spaces_from (c :: phrase) (c' :: s)).
      unfold starts_blank, is_blank in Hcc. simpl in Hcc. rewrite Hcc.
      rewrite IH by done. simpl. by rewrite <- app_assoc.
Qed.

(** *** The chunks and their join *)

Lemma chunks_of_good (l : list ascii) : Forall good_chunk (chunks_of l).
Proof.
  apply Forall_forall. intros chunk Hin. unfold chunks_of in Hin.
  apply list_elem_of_filter in Hin as [Hne Hin]. split; [done|].
  apply list_elem_of_In, in_flat_map in Hin as (line & Hline & Hin).
  apply in_map_iff in Hin as (piece & <- & Hpiece).
  apply in_map_iff in Hline as (raw & <- & Hraw).
  assert (no_line_boundary raw) as Hb.
  { pose proof (splitlines_from_no_boundary (length l) l [] (le_n _) (Forall_nil_2 _)) as H.
    rewrite Forall_forall in H. apply H. by apply list_elem_of_In. }
  split; [|split].
  - apply strip_Forall.
    pose proof (split_spaces_from_Forall (fun c => is_line_boundary c = false)
                  (length (strip raw)) (strip raw) [] (le_n _) (Forall_nil_2 _)
                  (strip_Forall _ _ Hb)) as H.
    rewrite Forall_forall in H. apply H. by apply list_elem_of_In.
  - apply strip_single_spaced.
    pose proof (split_spaces_from_single_spaced (length (strip raw)) (strip raw) []
                  (le_n _) eq_refl) as H.
    rewrite Forall_forall in H. apply H; [done|]. by apply list_elem_of_In.
  - apply strip_trimmed.
Qed.

Lemma join_chars_nonempty (chunk : list ascii) (rest : list (list ascii)) :
  chunk <> [] -> join_chars (chunk :: rest) <> [].
Proof. destruct rest; simpl; [done|]. by destruct chunk. Qed.

Lemma join_chars_cleaned (chunks : list (list ascii)) :
  Forall good_chunk chunks -> cleaned (join_chars chunks).
Proof.
  induction 1 as [|chunk chunks (Hne & Hb & Hd & Hh & Hl) Hall IH].
  - split; [constructor|]. split; [done|]. by split.
  - destruct chunks as [|next chunks]; [by simpl|].
    change (join_chars (chunk :: next :: chunks))
      with (chunk ++ " "%char :: join_chars (next :: chunks)).
    destruct IH as (Hb' & Hd' & Hh' & Hl').
    assert (join_chars (next :: chunks) <> []) as Hne'.
    { apply join_chars_nonempty. by apply Forall_cons in Hall as [[? _] _]. }
    split; [|split; [|split]].
    + apply Forall_app. split; [done|]. by apply Forall_cons.
    + rewrite has_double_space_app, has_double_space_cons, Hd, Hd'.
      rewrite (ends_blank_not_space chunk Hl).
      rewrite (starts_blank_not_space _ Hh'). by rewrite andb_false_r.
    + intros c. rewrite head_app. destruct chunk as [|c0 chunk]; [done|]. apply Hh.
    + intros c. rewrite last_app, last_cons.
      destruct (last (join_chars (next :: chunks))) as [c'|] eqn:E.
      * intros [= <-]. by apply Hl'.
      * by apply last_None in E.
Qed.

Lemma string_of_list_ascii_app (a b : list ascii) :
  string_of_list_ascii (a ++ b) = string_of_list_ascii a +:+ string_of_list_ascii b.
Proof. induction a as [|c a IH]; [done|]. simpl. by rewrite IH. Qed.

Lemma join_chars_string (chunks : list (list ascii)) :
  str_join " " (map string_of_list_ascii chunks) = string_of_list_ascii (join_chars chunks).
Proof.
  induction chunks as [|chunk chunks IH]; [done|].
  destruct chunks as [|next chunks]; [done|].
  change (join_chars (chunk :: next :: chunks))
    with (chunk ++ " "%char :: join_chars (next :: chunks)).
  rewrite string_of_list_ascii_app.
  change (string_of_list_ascii (" "%char :: join_chars (next :: chunks)))
    with (String " "%char (string_of_list_ascii (join_chars (next :: chunks)))).
  by rewrite <- IH.
Qed.

Lemma clean_text_chunks (text : string) :
  clean_text text = string_of_list_ascii (join_chars (chunks_of (list_ascii_of_string text))).
Proof. unfold clean_text. by rewrite join_chars_string. Qed.

Lemma chunks_of_cleaned (l : list ascii) :
  cleaned l -> join_chars (chunks_of l) = l.
Proof.
  intros (Hb & Hd & Ht). destruct l as [|c l]; [done|].
  unfold chunks_of, splitlines.
  rewrite (splitlines_from_one_line (c :: l) []) by done.
  simpl map. rewrite (strip_id (c :: l)) by done.
  simpl flat_map. unfold split_spaces.
  rewrite (split_spaces_from_one_piece (c :: l) []) by done.
  simpl map. rewrite (strip_id (c :: l)) by done.
  simpl app. by rewrite filter_cons_True, filter_nil.
Qed.

(** X11.  The text [clean_text] returns is one line, has no two spaces in a row
    and no whitespace at either end.  (Other whitespace inside a line, a tab
    for one, stays.) *)
Theorem clean_text_is_cleaned (text : string) :
  cleaned (list_ascii_of_string (clean_text text)).
Proof.
  rewrite clean_text_chunks, list_ascii_of_string_of_list_ascii.
  apply join_chars_cleaned, chunks_of_good.
Qed.

(** X12.  A text of that shape is left as it is, so cleaning twice is cleaning
    once. *)
Theorem clean_text_idempotent :
  (forall text, cleaned (list_ascii_of_string text) -> clean_text text = text)
  /\ (forall text, clean_text (clean_text text) = clean_text text).
Proof.
  assert (forall text, cleaned (list_ascii_of_string text) -> clean_text text = text) as H.
  { intros text Hc. rewrite clean_text_chunks, chunks_of_cleaned by done.
    apply string_of_list_ascii_of_string. }
  split; [done|]. intros text. apply H.
  rewrite clean_text_chunks, list_ascii_of_string_of_list_ascii.
  apply join_chars_cleaned, chunks_of_good.
Qed.

End CleanTextFacts.

(** ** More of the fetcher and the tools *)

Module SynthesisFacts.
Import Py ScriptMaker Outcome PyFacts ScriptMakerFacts.

Section Synthesizer.

Variable w : world.

(** X13.  A fetch succeeds exactly when the request is answered with a status
    between 200 and 299 and the parser accepts the text.  The page then
    echoes the url, has no error, and carries the cleaned text of the
    document cut to 15000 characters; its title is that of the document,
    ["No title"] when the document has no title element, and absent when the
    element has no string, in which case the source line reads ["None"]. *)
Theorem fetch_webpage_success_record (i : nat) (u : string) :
  url (fetch_webpage w i u) = u
  /\ (forall status_code text soup,
        http_get w i u = GetResponse status_code text ->
        200 <= status_code <= 299 ->
        parse_html w text = Done soup ->
        fetch_webpage w i u =
          {| url := u;
             title := match soup_title soup with
                      | Some title_string => title_string
                      | None => Some "No title"
                      end;
             content := Some (str_take 15000 (clean_text (soup_text soup)));
             success := true;
             error := None |})
  /\ (success (fetch_webpage w i u) = true ->
      exists status_code text soup,
        http_get w i u = GetResponse status_code text /\
        200 <= status_code <= 299 /\
        parse_html w text = Done soup)
  /\ (success (fetch_webpage w i u) = true ->
      error (fetch_webpage w i u) = None /\
      exists text, content (fetch_webpage w i u) = Some text /\
                   (String.length text <= 15000)%nat)
  /\ (forall status_code text soup,
        http_get w i u = GetResponse status_code text ->
        200 <= status_code <= 299 ->
        parse_html w text = Done soup ->
        soup_title soup = Some None ->
        source_summary (fetch_webpage w i u) = "- None (" +:+ u +:+ ")").
Proof.
  assert (forall status_code text soup,
            http_get w i u = GetResponse status_code text ->
            200 <= status_code <= 299 ->
            parse_html w text = Done soup ->
            fetch_webpage w i u =
              {| url := u;
                 title := match soup_title soup with
                          | Some title_string => title_string
                          | None => Some "No title"
                          end;
                 content := Some (str_take 15000 (clean_text (soup_text soup)));
                 success := true;
                 error := None |}) as Hdone.
  { intros status_code text soup Hget [H1 H2] Hparse.
    unfold fetch_webpage, fetch_body.
    rewrite Hget, (proj2 (Z.leb_le _ _) H1), (proj2 (Z.leb_le _ _) H2).
    cbn [andb]. by rewrite Hparse. }
  assert (success (fetch_webpage w i u) = true ->
          exists status_code text soup,
            http_get w i u = GetResponse status_code text /\
            200 <= status_code <= 299 /\
            parse_html w text = Done soup) as Hinv.
  { unfold fetch_webpage, fetch_body.
    destruct (http_get w i u) as [|status_code text] eqn:Hget; [done|].
    destruct ((200 <=? status_code) && (status_code <=? 299)) eqn:E; [|done].
    apply andb_true_iff in E as [?%Z.leb_le ?%Z.leb_le].
    destruct (parse_html w text) as [soup|] eqn:Hparse; [|done].
    intros _. exists status_code, text, soup. split; [done|]. split; [lia|done]. }
  split; [apply fetch_webpage_url|]. split; [exact Hdone|]. split; [exact Hinv|].
  split.
  - intros (status_code & text & soup & Hget & Hstatus & Hparse)%Hinv.
    rewrite (Hdone _ _ _ Hget Hstatus Hparse). cbn [error content].
    split; [done|]. eexists. split; [done|]. apply str_take_length.
  - intros status_code text soup Hget Hstatus Hparse Htitle.
    rewrite (Hdone _ _ _ Hget Hstatus Hparse), Htitle. done.
Qed.

(** X14.  Whatever the order in which the fetches complete, [gather] returns one
    page per url and page [i] echoes url [i]; the sources listed for a run
    are its successful pages, at most one per url. *)
Theorem gather_echoes_urls (urls : list string) :
  url <$> gather w urls = urls
  /\ length (gather w urls) = length urls
  /\ length (source_list (gather w urls)) = length (successful (gather w urls))
  /\ (length (successful (gather w urls)) <= length urls)%nat.
Proof.
  rewrite gather_in_url_order. split; [|split; [|split]].
  - rewrite fmap_imap.
    rewrite (imap_ext _ (const id) urls)
      by (intros; apply fetch_webpage_url).
    by rewrite imap_const, list_fmap_id.
  - apply length_imap.
  - unfold source_list. apply length_fmap.
  - unfold successful. etransitivity; [apply filter_length_le|].
    by rewrite length_imap.
Qed.

(** *** The completion request of each tool *)

Lemma answer_served (request : completion_request) (wrap : string -> string)
    (calls : list completion_request) :
  model request = "claude-sonnet-4-20250514" ->
  served w calls (answer w request wrap, calls ++ [request]).
Proof.
  intros Hmodel. exists request. repeat split; [done|].
  unfold answer. cbn [fst].
  destruct (messages_create w request) as [[|text more]|message]; eauto.
Qed.

(** X15.  The storytelling, analysis and comparison tools send one completion
    request on every run, whatever the urls and the fetches; the script tool
    sends one unless it refuses.  A failure of that request is not caught:
    the run ends with the exception of the service, or with an [IndexError]
    when the message has no content block, and the request stays in the
    log. *)
Theorem tools_send_one_request (urls : list string)
    (podcast_style episode_length tone target_audience : string)
    (narrative_style narrator_voice podcast_type comparison_angle : string)
    (calls : list completion_request) :
  served w calls
    (generate_storytelling_podcast w urls narrative_style narrator_voice calls)
  /\ served w calls (analyze_sources_for_podcast w urls podcast_type calls)
  /\ served w calls (compare_sources_podcast w urls comparison_angle calls)
  /\ (served w calls
        (generate_podcast_script w urls podcast_style episode_length tone
                                 target_audience calls)
      \/ generate_podcast_script w urls podcast_style episode_length tone
                                 target_audience calls = (Done refusal, calls)).
Proof.
  rewrite generate_storytelling_podcast_closed, analyze_sources_for_podcast_closed,
    compare_sources_podcast_closed, generate_podcast_script_closed.
  cbv zeta. repeat split; try by apply answer_served.
  destruct (_ =? 0)%nat; [by right|]. left. by apply answer_served.
Qed.

Lemma no_block_without_success (block : nat -> FetchedPage -> string)
    (f : nat -> nat) (results : list FetchedPage) :
  successful results = [] ->
  str_concat (imap (fun i => success_only block (f i)) results) = EmptyString.
Proof.
  revert f. induction results as [|r results IH]; intros f; [done|].
  unfold successful. simpl. destruct (success r) eqn:Hr; [done|].
  intros Hnone. unfold success_only at 1. rewrite Hr. simpl.
  apply (IH (f ∘ S) Hnone).
Qed.

(** X16.  When no fetch succeeds, and so for an empty list of urls, the three
    tools other than the script tool still ask for a completion: the context
    of the prompt is the bare header and the source list is empty. *)
Theorem tools_without_sources (urls : list string)
    (narrative_style narrator_voice podcast_type comparison_angle : string)
    (calls : list completion_request) :
  (forall i u, urls !! i = Some u -> success (fetch_webpage w i u) = false) ->
  let story_request :=
    completion 8000 (Some (8 # 10)%Q)
      (storytelling_prompt story_header narrative_style narrator_voice) in
  let analysis_request :=
    completion 4096 None (analysis_prompt podcast_type analysis_header) in
  let compare_request :=
    completion 8000 (Some (7 # 10)%Q)
      (comparison_prompt comparison_angle compare_header) in
  generate_storytelling_podcast w urls narrative_style narrator_voice calls
    = (answer w story_request
         (fun text => storytelling_response w narrative_style narrator_voice text []),
       calls ++ [story_request])
  /\ analyze_sources_for_podcast w urls podcast_type calls
    = (answer w analysis_request (fun text => analysis_response text []),
       calls ++ [analysis_request])
  /\ compare_sources_podcast w urls comparison_angle calls
    = (answer w compare_request
         (fun text => comparison_response urls comparison_angle text []),
       calls ++ [compare_request]).
Proof.
  intros Hnone%no_success_iff. cbv zeta.
  rewrite generate_storytelling_podcast_closed, analyze_sources_for_podcast_closed,
    compare_sources_podcast_closed.
  cbv zeta. unfold story_context, analysis_context, compare_context, source_list.
  rewrite !no_block_without_success by done.
  rewrite Hnone, !append_empty_r. done.
Qed.

End Synthesizer.

End SynthesisFacts.

(** ** The pipeline driver *)

Module PipelineFacts.
Import Py WebSearch SearchManager Pipeline PyFacts WebSearchFacts.

(** *** File names *)

Lemma replace_spaces_chars (s : string) :
  list_ascii_of_string (replace_spaces s)
    = (fun c => if Ascii.eqb c " "%char then "_"%char else c)
        <$> list_ascii_of_string s.
Proof. induction s as [|c s IH]; [done|]. csimpl. by rewrite IH. Qed.

Lemma str_take_chars (n : nat) (s : string) :
  list_ascii_of_string (str_take n s) = take n (list_ascii_of_string s).
Proof.
  revert n. induction s as [|c s IH]; intros [|n]; simpl; try done.
  by rewrite IH.
Qed.

Lemma length_chars (s : string) : length (list_ascii_of_string s) = String.length s.
Proof. induction s as [|c s IH]; [done|]. simpl. by rewrite IH. Qed.

Lemma filter_all {A : Type} (p : A -> bool) (l : list A) :
  Forall (fun x => p x = true) l -> List.filter p l = l.
Proof. induction 1 as [|x l Hx _ IH]; [done|]. simpl. by rewrite Hx, IH. Qed.

Section Driver.

Variable rt : runtime.
Variable svc : service.
Variable w : ScriptMaker.world.
Variable h : host.

Lemma safe_query_chars (query : string) :
  list_ascii_of_string (safe_query h query)
    = take 30 ((fun c => if Ascii.eqb c " "%char then "_"%char else c)
                 <$> list_ascii_of_string (str_lower h query)).
Proof. unfold safe_query. by rewrite str_take_chars, replace_spaces_chars. Qed.

(** X17.  The part of a file name made from the query is made of the first
    30 characters of the lowered query, each space replaced by an
    underscore.  So it is as long as the lowered query, up to 30, and holds
    no space; every other character of the lowered query stays as it is (a
    path separator too), and replacing and cutting once more changes
    nothing.  ([str.lower] is the library's: past ASCII it may change the
    number of characters.) *)
Theorem safe_query_shape (query : string) :
  let lowered := list_ascii_of_string (str_lower h query) in
  list_ascii_of_string (safe_query h query)
    = take 30 ((fun c => if Ascii.eqb c " "%char then "_"%char else c) <$> lowered)
  /\ String.length (safe_query h query) = Nat.min 30 (length lowered)
  /\ Forall (fun c => c <> " "%char) (list_ascii_of_string (safe_query h query))
  /\ (forall i c,
        (i < 30)%nat -> lowered !! i = Some c -> c <> " "%char ->
        list_ascii_of_string (safe_query h query) !! i = Some c)
  /\ str_take 30 (replace_spaces (safe_query h query)) = safe_query h query.
Proof.
  cbv zeta. split; [apply safe_query_chars|]. split; [|split; [|split]].
  - by rewrite <- length_chars, safe_query_chars, length_take, length_fmap.
  - rewrite safe_query_chars. apply Forall_take, Forall_fmap, Forall_forall.
    intros c _. simpl. by destruct (Ascii.eqb_spec c " "%char).
  - intros i c Hi Hc Hspace.
    rewrite safe_query_chars, lookup_take_lt, list_lookup_fmap, Hc by done.
    simpl. by destruct (Ascii.eqb_spec c " "%char).
  - rewrite <- (string_of_list_ascii_of_string
                  (str_take 30 (replace_spaces (safe_query h query)))).
    rewrite <- (string_of_list_ascii_of_string (safe_query h query)) at 2.
    f_equal. rewrite str_take_chars, replace_spaces_chars, safe_query_chars.
    rewrite fmap_take, take_take, <- list_fmap_compose. simpl Nat.min.
    f_equal. apply list_fmap_ext. intros _ c _. simpl.
    destruct (Ascii.eqb_spec c " "%char); [done|].
    by destruct (Ascii.eqb_spec c " "%char).
Qed.

(** *** From the search to the urls *)

Lemma extracted_urls_closed (query : string) (num_results : Z) :
  search_and_extract_urls rt svc query num_results
    = url <$> List.filter (fun r => negb (String.eqb (url r) EmptyString))
                          (search_for_links rt svc query num_results).
Proof.
  unfold search_and_extract_urls.
  by destruct (search_for_links rt svc query num_results).
Qed.

Lemma degraded_gives_no_url (query text : string) (num_results : Z) :
  search_for_links rt svc query num_results = _parse_text_results text query ->
  search_and_extract_urls rt svc query num_results = [].
Proof. intros H. by rewrite extracted_urls_closed, H. Qed.

Lemma degraded_search_gives_no_url (query text : string) (num_results : Z) :
  search rt svc query num_results true 7 = Ok (_parse_text_results text query) ->
  search_and_extract_urls rt svc query num_results = [].
Proof.
  intros H. apply (degraded_gives_no_url _ text).
  by rewrite (ClientFacts.search_for_links_search rt svc), H.
Qed.


(** *** From the urls to the file *)

Lemma script_tool_calls (urls : list string)
    (podcast_style episode_length tone target_audience : string)
    (log : list ScriptMaker.completion_request) :
  let run := ScriptMaker.generate_podcast_script w urls podcast_style
               episode_length tone target_audience log in
  snd run = log \/ exists request, snd run = log ++ [request].
Proof.
  cbv zeta. rewrite ScriptMakerFacts.generate_podcast_script_closed. cbv zeta.
  destruct (length _ =? 0)%nat; [by left|right]. by eexists.
Qed.

(** The seven ways through [generate_script_from_urls]. *)
Lemma script_run_cases (urls : list string) (filename : string)
    (podcast_style episode_length tone target_audience : string) (st : run_state) :
  let run := generate_script_from_urls w h urls filename podcast_style
               episode_length tone target_audience st in
  let tool := ScriptMaker.generate_podcast_script w urls podcast_style
                episode_length tone target_audience (calls st) in
  let sent := {| calls := snd tool; files := files st |} in
  let opened (text : string) :=
    {| calls := snd tool; files := files st ++ [(filename, text)] |} in
  (urls = [] /\ run = (ScriptMaker.Done false, st))
  \/ (urls <> [] /\ exists message,
        import_error h = Some message /\ run = (handled h message, st))
  \/ (urls <> [] /\ import_error h = None /\ exists message,
        fst tool = ScriptMaker.Failed message /\ run = (handled h message, sent))
  \/ (urls <> [] /\ import_error h = None /\ exists script message,
        fst tool = ScriptMaker.Done script /\
        open_error h filename = Some message /\ run = (handled h message, sent))
  \/ (urls <> [] /\ import_error h = None /\ exists script message remains,
        fst tool = ScriptMaker.Done script /\ open_error h filename = None /\
        write h filename script = WriteRaises message remains /\
        run = (handled h message, opened remains))
  \/ (urls <> [] /\ import_error h = None /\ exists script message,
        fst tool = ScriptMaker.Done script /\ open_error h filename = None /\
        write h filename script = Written /\
        report_error h filename script = Some message /\
        run = (handled h message, opened script))
  \/ (urls <> [] /\ import_error h = None /\ exists script,
        fst tool = ScriptMaker.Done script /\ open_error h filename = None /\
        write h filename script = Written /\
        report_error h filename script = None /\
        run = (ScriptMaker.Done true, opened script)).
Proof.
  cbv zeta. unfold generate_script_from_urls.
  destruct urls as [|u urls]; [by left|]. right.
  destruct (import_error h) as [message|] eqn:Himport;
    [left; split; [done|by exists message]|].
  right.
  destruct (ScriptMaker.generate_podcast_script w (u :: urls) podcast_style
              episode_length tone target_audience (calls st))
    as [[script|message] calls']; cbn [fst snd];
    [|left; split; [done|split; [done|by exists message]]].
  right.
  destruct (open_error h filename) as [message|];
    [left; split; [done|split; [done|by exists script, message]]|].
  right.
  destruct (write h filename script) as [|message remains] eqn:Hwrite;
    [|left; split; [done|split; [done|by exists script, message, remains]]].
  right.
  destruct (report_error h filename script) as [message|] eqn:Hreport;
    [left; split; [done|split; [done|by exists script, message]]|].
  right. split; [done|]. split; [done|]. by exists script.
Qed.

Lemma handled_not_true (message : string) : handled h message <> ScriptMaker.Done true.
Proof. unfold handled. by destruct (handler_error h message). Qed.



(** *** The whole run *)


End Driver.

End PipelineFacts.

(** ** Concrete runs of the properties above *)

Module RunFacts.
Import Py Scenarios Runs.

(** A payload that is one hit object comes back as one result although the
    cap is 0. *)
Lemma search_result_count_bound_witness :
  WebSearch.search single_hit_runtime single_hit_service "only" 0 true 7
    = Ok [ {| WebSearch.title := "Only hit";
              WebSearch.url := "https://only.example/";
              WebSearch.description := EmptyString;
              WebSearch.relevance_score := float_zero |} ]
  /\ (1 <= Nat.max (Z.to_nat 0) 1)%nat.
Proof.
  split; [reflexivity|].
  apply (ClientFacts.search_result_count_bound single_hit_runtime single_hit_service
           "only" 0 true 7
           [ {| WebSearch.title := "Only hit";
                WebSearch.url := "https://only.example/";
                WebSearch.description := EmptyString;
                WebSearch.relevance_score := float_zero |} ]).
  - lia.
  - reflexivity.
Defined.




(** The result of a hit, fed back as a hit. *)
Lemma normalising_twice_witness :
  WebSearch._create_search_result plain_runtime (SearchManager.hit_of_result plain_result)
    = Some plain_result.
Proof.
  apply (ClientFacts.normalising_twice plain_runtime zero_score_hit plain_result).
  - intros v. discriminate.
  - reflexivity.
  - discriminate.
Defined.

(** Two urls that cannot be reached: the storytelling tool sends its request
    with the bare header. *)
Lemma tools_without_sources_witness :
  snd (ScriptMaker.generate_storytelling_podcast down_world mixed_urls
         "dramatic" "warm" [])
  = [ScriptMaker.completion 8000 (Some (8 # 10)%Q)
       (ScriptMaker.storytelling_prompt ScriptMaker.story_header "dramatic" "warm")].
Proof.
  pose proof (SynthesisFacts.tools_without_sources down_world mixed_urls
                "dramatic" "warm" "interview" "contrast" []
                (fun i u _ => eq_refl)) as H.
  cbv zeta in H. destruct H as (H & _). rewrite H. reflexivity.
Defined.


(** The second url is served, and the text of the script cannot be encoded
    for the file: [False] comes back, and an empty file is left under the
    name. *)
Example failed_write_leaves_a_file :
  let run :=
    Pipeline.generate_script_from_urls mixed_world strict_host mixed_urls
      "podcast_rust_20261103_101500.md" "solo_narrative" "medium_15_25_min"
      "casual" "general audience" empty_run in
  fst run = ScriptMaker.Done false /\
  Pipeline.files (snd run) = [("podcast_rust_20261103_101500.md", EmptyString)] /\
  length (Pipeline.calls (snd run)) = 1%nat.
Proof. vm_compute. repeat split. Qed.

End RunFacts.
